(** * Draw molecules and chemical compounds: the lookup / parse / render pipeline

    A shallow embedding of [app.py].  The three functions of the
    application ([get_smiles_from_chembl], [smiles_to_mol],
    [mol_to_png_bytes]) and the submitted branch of the Streamlit script talk
    to the outside world through third-party libraries (requests, RDKit,
    Streamlit).  Every such call is an _event_ of a finite interaction tree;
    the world answers events, possibly differently each time, and a run
    records the calls that were made.  What Python computes on its own
    (truthiness, [dict.get], [x or y], iteration, [str.strip],
    [urllib.parse.quote_plus]) is defined here as executable functions. *)

From Stdlib Require Import ZArith NArith List String Ascii Bool Lia.
From Stdlib Require Import Init.Byte Strings.Byte.
From Stdlib Require Import Floats.SpecFloat.
Import ListNotations.

Local Open Scope Z_scope.
Set Warnings "-register-all".

(** ** Python values *)

(** A Python [str] is a sequence of code points; it can hold lone surrogates
    (U+D800..U+DFFF), which no [string] of UTF-8 bytes can. *)
Definition pystr := list N.

Definition lit (s : string) : pystr :=
  map N_of_ascii (list_ascii_of_string s).

Fixpoint pystr_eqb (a b : pystr) : bool :=
  match a, b with
  | [], [] => true
  | x :: a', y :: b' => N.eqb x y && pystr_eqb a' b'
  | _, _ => false
  end.

(** What [json.loads] (through [Response.json]) can produce.  A decoded
    object is a [dict]: its items in insertion order, looked up by key. *)
Inductive json :=
| JNull
| JBool (b : bool)
| JInt (z : Z)
| JFloat (f : spec_float)
| JStr (s : pystr)
| JList (l : list json)
| JDict (d : list (pystr * json)).

(** [bool(v)]: [None], [False], zero, and empty strings and containers are
    falsy; everything else (a NaN too) is truthy. *)
Definition truthy (v : json) : bool :=
  match v with
  | JNull => false
  | JBool b => b
  | JInt z => negb (Z.eqb z 0)
  | JFloat (S754_zero _) => false
  | JFloat _ => true
  | JStr s => match s with [] => false | _ => true end
  | JList l => match l with [] => false | _ => true end
  | JDict d => match d with [] => false | _ => true end
  end.

(** [x or y] *)
Definition py_or (x y : json) : json := if truthy x then x else y.

(** ** Exceptions *)

(** The ways [requests.get] fails; requests raises them as subclasses of
    [requests.RequestException]. *)
Inductive request_failure :=
| Timeout
| ConnectionError
| OtherRequestFailure.

Inductive exn :=
| RequestException (f : request_failure)
| HTTPError (status : Z)
| JSONDecodeError
| AttributeError
| TypeError
| UnicodeEncodeError
| MolSanitizeException
| RuntimeError
| StopException.

(** [except requests.RequestException] *)
Definition is_RequestException (e : exn) : bool :=
  match e with
  | RequestException _ | HTTPError _ => true
  | _ => false
  end.

(** [except Exception]: Streamlit's [StopException] is a script-control
    exception and derives from [BaseException] only. *)
Definition is_Exception (e : exn) : bool :=
  match e with
  | StopException => false
  | _ => true
  end.

Inductive result (A : Type) :=
| Ok (a : A)
| Raise (e : exn).
Arguments Ok {A} a.
Arguments Raise {A} e.

Definition rbind {A B} (r : result A) (f : A -> result B) : result B :=
  match r with
  | Ok a => f a
  | Raise e => Raise e
  end.

Declare Scope result_scope.
Delimit Scope result_scope with result.
Notation "x <- c ;; k" := (rbind c (fun x => k))
  (at level 61, c at next level, right associativity) : result_scope.

(** ** The JSON side of [get_smiles_from_chembl] (lines 27-33) *)

Fixpoint dict_lookup (key : pystr) (d : list (pystr * json)) : option json :=
  match d with
  | [] => None
  | (k, v) :: d' => if pystr_eqb k key then Some v else dict_lookup key d'
  end.

(** [o.get(key)]: only a dict has the method; a missing key gives [None]. *)
Definition py_get (o : json) (key : pystr) : result json :=
  match o with
  | JDict d => Ok (match dict_lookup key d with Some v => v | None => JNull end)
  | _ => Raise AttributeError
  end.

(** [for h in v]: a list yields its elements, a str its characters, a dict
    its keys; nothing else that JSON decodes to is iterable. *)
Definition py_iter (v : json) : result (list json) :=
  match v with
  | JList l => Ok l
  | JStr s => Ok (map (fun c => JStr [c]) s)
  | JDict d => Ok (map (fun kv => JStr (fst kv)) d)
  | _ => Raise TypeError
  end.

(** Lines 29-30: the candidate's [canonical_smiles]. *)
Definition candidate_smiles (h : json) : result json :=
  (ms0 <- py_get h (lit "molecule_structures") ;;
   let ms := py_or ms0 (JDict []) in
   py_get ms (lit "canonical_smiles"))%result.

(** Lines 28-33: the loop over the hits, with its [return]s. *)
Fixpoint scan_hits (hits : list json) : result json :=
  match hits with
  | [] => Ok JNull
  | h :: rest =>
      match candidate_smiles h with
      | Raise e => Raise e
      | Ok smiles => if truthy smiles then Ok smiles else scan_hits rest
      end
  end.

(** Lines 27-33 on the decoded body. *)
Definition smiles_of_data (data : json) : result json :=
  (m <- py_get data (lit "molecules") ;;
   let hits := py_or m (JList []) in
   hs <- py_iter hits ;;
   scan_hits hs)%result.

(** ** [str.strip] and [urllib.parse.quote_plus] *)

(** [str.isspace] on one character. *)
Definition isspace (c : N) : bool :=
  ((9 <=? c) && (c <=? 13) || (28 <=? c) && (c <=? 32)
   || (c =? 133) || (c =? 160) || (c =? 5760)
   || (8192 <=? c) && (c <=? 8202)
   || (c =? 8232) || (c =? 8233) || (c =? 8239) || (c =? 8287)
   || (c =? 12288))%N.

Fixpoint lstrip (s : pystr) : pystr :=
  match s with
  | [] => []
  | c :: s' => if isspace c then lstrip s' else s
  end.

Definition strip (s : pystr) : pystr := rev (lstrip (rev (lstrip s))).

(** [str.encode('utf-8', 'strict')] on one code point: surrogates cannot be
    encoded. *)
Definition utf8_char (c : N) : option (list N) :=
  (if c <? 128 then Some [c]
   else if c <? 2048 then Some [192 + c / 64; 128 + c mod 64]
   else if (55296 <=? c) && (c <=? 57343) then None
   else if c <? 65536 then
     Some [224 + c / 4096; 128 + (c / 64) mod 64; 128 + c mod 64]
   else if c <? 1114112 then
     Some [240 + c / 262144; 128 + (c / 4096) mod 64;
           128 + (c / 64) mod 64; 128 + c mod 64]
   else None)%N.

Fixpoint utf8_encode (s : pystr) : option (list N) :=
  match s with
  | [] => Some []
  | c :: s' =>
      match utf8_char c, utf8_encode s' with
      | Some bs, Some rest => Some (bs ++ rest)
      | _, _ => None
      end
  end.

(** The characters [quote] never escapes: letters, digits and [_.-~]. *)
Definition always_safe (b : N) : bool :=
  ((65 <=? b) && (b <=? 90) || (97 <=? b) && (b <=? 122)
   || (48 <=? b) && (b <=? 57)
   || (b =? 95) || (b =? 46) || (b =? 45) || (b =? 126))%N.

Definition hex_digit (n : N) : N :=
  (if n <? 10 then 48 + n else 55 + n)%N.

Definition quote_byte (b : N) : pystr :=
  (if b =? 32 then [43]
   else if always_safe b then [b]
   else [37; hex_digit (b / 16); hex_digit (b mod 16)])%N.

Definition quote_plus (s : pystr) : result pystr :=
  match utf8_encode s with
  | Some bs => Ok (flat_map quote_byte bs)
  | None => Raise UnicodeEncodeError
  end.


(** ** The outside world *)

(** What [requests.get] returns: the status line and what [r.json()] makes of
    the body ([None] when the body is not JSON and [r.json()] raises). *)
Record response := {
  status_code : Z;
  json_body : option json
}.

(** Calls into Streamlit. *)
Inductive ui_call :=
| st_error (body : string)
| st_stop
| st_spinner (text : pystr)
| st_success (before : string) (value : json) (after : string)
| st_image (image : list byte) (caption : pystr)
| st_download_button (label : pystr) (data : list byte) (file_name : pystr)
    (mime : string).

Section App.

(** RDKit's molecule object; the application never looks inside. *)
Variable Mol : Type.

(** The state of a [MolDraw2DCairo] object as this program drives it. *)
Record drawer := {
  d_width : Z;
  d_height : Z;
  clearBackground : bool;
  bw_atom_palette : bool;
  d_drawn : option (Mol * pystr);
  d_finished : bool
}.

(** The calls whose answer comes from outside, with the type of the answer.
    [Chem.SanitizeMol] and [AllChem.Compute2DCoords] change the molecule in
    place: the answer is its new state ([None] where sanitization raises).
    The drawing backend writes the bytes of a canvas or refuses it ([None]:
    RDKit raises [RuntimeError], as it does for a canvas of size 0 by 0). *)
Inductive event : Type -> Type :=
| ev_requests_get (url : pystr) (timeout : Z) :
    event (request_failure + response)
| ev_MolFromSmiles (smiles : pystr) : event (option Mol)
| ev_SanitizeMol (mol : Mol) : event (option Mol)
| ev_Compute2DCoords (mol : Mol) : event Mol
| ev_GetDrawingText (d : drawer) : event (option (list byte))
| ev_st (c : ui_call) : event unit.

(** A program: it returns, or performs a call and goes on with the answer. *)
Inductive prog (R : Type) : Type :=
| Ret (r : R)
| Vis (X : Type) (e : event X) (k : X -> prog R).
Arguments Ret {R} r.
Arguments Vis {R X} e k.

(** Python code: a program that returns a value or raises. *)
Definition M (R : Type) : Type := prog (result R).

Definition ret {A} (a : A) : M A := Ret (Ok a).
Definition raise {A} (e : exn) : M A := Ret (Raise e).
Definition lift {A} (r : result A) : M A := Ret r.
Definition call {X} (e : event X) : M X := Vis e (fun a => Ret (Ok a)).

Fixpoint bind {A B} (p : M A) (f : A -> M B) : M B :=
  match p with
  | Ret (Ok a) => f a
  | Ret (Raise e) => Ret (Raise e)
  | Vis e k => Vis e (fun x => bind (k x) f)
  end.

(** [try: body / except <catches>: handler] *)
Fixpoint try_except {A} (body : M A) (catches : exn -> bool) (handler : M A)
  : M A :=
  match body with
  | Ret (Ok a) => Ret (Ok a)
  | Ret (Raise e) => if catches e then handler else Ret (Raise e)
  | Vis e k => Vis e (fun x => try_except (k x) catches handler)
  end.

Declare Scope prog_scope.
Delimit Scope prog_scope with prog.
Notation "x <- c ;; k" := (bind c (fun x => k))
  (at level 61, c at next level, right associativity) : prog_scope.
Notation "c ;;; k" := (bind c (fun _ => k))
  (at level 61, right associativity) : prog_scope.
Local Open Scope prog_scope.

(** *** The library calls of [app.py] *)

Definition requests_get (url : pystr) (timeout : Z) : M response :=
  Vis (ev_requests_get url timeout)
    (fun a => match a with
              | inl f => raise (RequestException f)
              | inr r => ret r
              end).

(** [Response.raise_for_status]: 4xx and 5xx raise [HTTPError]. *)
Definition raise_for_status (r : response) : M unit :=
  if (400 <=? status_code r) && (status_code r <? 600)
  then raise (HTTPError (status_code r))
  else ret tt.

Definition response_json (r : response) : M json :=
  match json_body r with
  | Some data => ret data
  | None => raise JSONDecodeError
  end.

(** [Chem.MolFromSmiles] takes a str, which the binding hands to RDKit as
    UTF-8: a str that cannot be encoded raises [UnicodeEncodeError], and
    anything that is not a str raises [TypeError], both before RDKit sees
    it. *)
Definition Chem_MolFromSmiles (smiles : json) : M (option Mol) :=
  match smiles with
  | JStr s =>
      match utf8_encode s with
      | Some _ => call (ev_MolFromSmiles s)
      | None => raise UnicodeEncodeError
      end
  | _ => raise TypeError
  end.

Definition Chem_SanitizeMol (mol : Mol) : M Mol :=
  Vis (ev_SanitizeMol mol)
    (fun a => match a with
              | Some mol' => ret mol'
              | None => raise MolSanitizeException
              end).

Definition AllChem_Compute2DCoords (mol : Mol) : M Mol :=
  call (ev_Compute2DCoords mol).

Definition MolDraw2DCairo (w h : Z) : drawer :=
  {| d_width := w; d_height := h; clearBackground := true;
     bw_atom_palette := false; d_drawn := None; d_finished := false |}.

Definition set_clearBackground (d : drawer) (b : bool) : drawer :=
  {| d_width := d_width d; d_height := d_height d; clearBackground := b;
     bw_atom_palette := bw_atom_palette d; d_drawn := d_drawn d;
     d_finished := d_finished d |}.

Definition useBWAtomPalette (d : drawer) : drawer :=
  {| d_width := d_width d; d_height := d_height d;
     clearBackground := clearBackground d;
     bw_atom_palette := true; d_drawn := d_drawn d;
     d_finished := d_finished d |}.

(** The caption goes to RDKit as UTF-8, like the encoding above. *)
Definition PrepareAndDrawMolecule (d : drawer) (mol : Mol) (legend : pystr)
  : M drawer :=
  match utf8_encode legend with
  | Some _ =>
      ret {| d_width := d_width d; d_height := d_height d;
             clearBackground := clearBackground d;
             bw_atom_palette := bw_atom_palette d;
             d_drawn := Some (mol, legend);
             d_finished := d_finished d |}
  | None => raise UnicodeEncodeError
  end.

Definition FinishDrawing (d : drawer) : drawer :=
  {| d_width := d_width d; d_height := d_height d;
     clearBackground := clearBackground d;
     bw_atom_palette := bw_atom_palette d; d_drawn := d_drawn d;
     d_finished := true |}.

Definition GetDrawingText (d : drawer) : M (list byte) :=
  Vis (ev_GetDrawingText d)
    (fun a => match a with
              | Some text => ret text
              | None => raise RuntimeError
              end).

Definition st (c : ui_call) : M unit := call (ev_st c).

(** [st.stop()] ends the script run by raising. *)
Definition stop : M unit := st st_stop ;;; raise StopException.

(** *** 1) ChEMBL API *)

Definition search_url : pystr :=
  lit "https://www.ebi.ac.uk/chembl/api/data/molecule/search.json?q=".

(** Python's [None] is [JNull]. *)
Definition get_smiles_from_chembl (name : pystr) : M json :=
  q <- lift (quote_plus name) ;;
  let url := (search_url ++ q)%list in
  r <- try_except
         (r <- requests_get url 30 ;;
          raise_for_status r ;;;
          ret (Some r))
         is_RequestException
         (ret None) ;;
  match r with
  | None => ret JNull
  | Some r =>
      try_except
        (data <- response_json r ;;
         lift (smiles_of_data data))
        is_Exception
        (ret JNull)
  end.

(** *** 2) SMILES to mol *)

Definition smiles_to_mol (smiles : json) : M (option Mol) :=
  if negb (truthy smiles) then ret None
  else
    mol <- Chem_MolFromSmiles smiles ;;
    match mol with
    | None => ret None
    | Some mol =>
        mol <- Chem_SanitizeMol mol ;;
        mol <- AllChem_Compute2DCoords mol ;;
        ret (Some mol)
    end.

(** *** 3) Generate image *)

Definition mol_to_png_bytes (mol : option Mol) (legend : pystr)
  (size : Z * Z) : M (option (list byte)) :=
  match mol with
  | None => ret None
  | Some mol =>
      let (w, h) := size in
      let drawer := MolDraw2DCairo w h in
      let drawer := set_clearBackground drawer false in
      let drawer := useBWAtomPalette drawer in
      drawer <- PrepareAndDrawMolecule drawer mol legend ;;
      let drawer := FinishDrawing drawer in
      text <- GetDrawingText drawer ;;
      ret (Some text)
  end.

(** The canvas [mol_to_png_bytes] has built when it asks for the bytes. *)
Definition canvas (m : Mol) (legend : pystr) (size : Z * Z) : drawer :=
  {| d_width := fst size; d_height := snd size; clearBackground := false;
     bw_atom_palette := true; d_drawn := Some (m, legend);
     d_finished := true |}.

(** *** 4) The submitted branch of the script (lines 138-169) *)

Definition msg_no_name : string :=
  "Please type the molecule name you want to draw (in English).".
Definition msg_not_found : string :=
  "The compound was not found in ChEMBL or there was a network problem.".
Definition msg_invalid : string := "Invalid SMILES.".
Definition msg_no_image : string := "The image could not be generated.".

Definition spinner_text : pystr :=
  (lit "Searching in ChEMBL and drawing" ++ [8230%N])%list.
Definition download_label : pystr :=
  ([11015%N; 65039%N] ++ lit " Download image")%list.

Definition when (b : bool) (p : M unit) : M unit :=
  if b then p else ret tt.

Definition bytes_truthy (b : option (list byte)) : bool :=
  match b with
  | Some (_ :: _) => true
  | _ => false
  end.

Definition pipeline (name : pystr) (width height : Z) (legend : pystr)
  : M unit :=
  when (negb (truthy (JStr (strip name))))
    (st (st_error msg_no_name) ;;; stop) ;;;
  st (st_spinner spinner_text) ;;;
  smiles <- get_smiles_from_chembl (strip name) ;;
  when (negb (truthy smiles))
    (st (st_error msg_not_found) ;;; stop) ;;;
  mol <- smiles_to_mol smiles ;;
  when (match mol with None => true | Some _ => false end)
    (st (st_error msg_invalid) ;;; stop) ;;;
  png_bytes <- mol_to_png_bytes mol legend (width, height) ;;
  when (negb (bytes_truthy png_bytes))
    (st (st_error msg_no_image) ;;; stop) ;;;
  let png := match png_bytes with Some b => b | None => [] end in
  st (st_success "Done! Found SMILES: `" smiles "`") ;;;
  st (st_image png legend) ;;;
  st (st_download_button download_label png
        (strip name ++ lit ".png")%list "image/png").

(** ** Running a program against a world *)

(** The world answers each call from its current state and moves on. *)
Variable World : Type.
Variable answer : forall X, event X -> World -> X * World.

Inductive called := Called (X : Type) (e : event X) (a : X).
Arguments Called {X} e a.

Fixpoint run {R} (p : prog R) (w : World) : R * World * list called :=
  match p with
  | Ret r => (r, w, [])
  | Vis e k =>
      let (a, w1) := answer _ e w in
      let '(r, w2, t) := run (k a) w1 in
      (r, w2, Called e a :: t)
  end.

Definition outcome {R} (x : R * World * list called) : R := fst (fst x).
Definition final {R} (x : R * World * list called) : World := snd (fst x).
Definition trace {R} (x : R * World * list called) : list called := snd x.

Definition is_network_call (c : called) : bool :=
  match c with
  | Called (ev_requests_get _ _) _ => true
  | _ => false
  end.

Definition is_parser_call (c : called) : bool :=
  match c with
  | Called (ev_MolFromSmiles _) _ => true
  | Called (ev_SanitizeMol _) _ => true
  | Called (ev_Compute2DCoords _) _ => true
  | _ => false
  end.

Definition is_renderer_call (c : called) : bool :=
  match c with
  | Called (ev_GetDrawingText _) _ => true
  | _ => false
  end.

End App.

Arguments Ret {Mol R} r.
Arguments Vis {Mol R X} e k.
Arguments Called {Mol X} e a.
Arguments ret {Mol A} a.
Arguments raise {Mol A} e.
Arguments lift {Mol A} r.
Arguments call {Mol X} e.
Arguments bind {Mol A B} p f.
Arguments try_except {Mol A} body catches handler.
Arguments requests_get {Mol} url timeout.
Arguments raise_for_status {Mol} r.
Arguments response_json {Mol} r.
Arguments st {Mol} c.
Arguments stop {Mol}.
Arguments when {Mol} b p.
Arguments get_smiles_from_chembl {Mol} name.
Arguments smiles_to_mol {Mol} smiles.
Arguments mol_to_png_bytes {Mol} mol legend size.
Arguments pipeline {Mol} name width height legend.
Arguments canvas {Mol} m legend size.
Arguments run {Mol World} answer {R} p w.
Arguments outcome {Mol World R} x.
Arguments final {Mol World R} x.
Arguments trace {Mol World R} x.
Arguments is_network_call {Mol} c.
Arguments search_url : simpl never.
Arguments is_parser_call {Mol} c.
Arguments is_renderer_call {Mol} c.

(** ** What the specification says of the resolver *)

(** The candidate's canonical structural field: the [canonical_smiles] entry
    of its [molecule_structures] record, [JNull] where it carries none. *)
Definition canonical_field (h : json) : json :=
  match h with
  | JDict d =>
      match dict_lookup (lit "molecule_structures") d with
      | Some (JDict ms) =>
          match dict_lookup (lit "canonical_smiles") ms with
          | Some v => v
          | None => JNull
          end
      | _ => JNull
      end
  | _ => JNull
  end.

(** "The first candidate that carries a non-empty canonical structural
    field", absent when there is none. *)
Fixpoint first_nonempty_field (hits : list json) : json :=
  match hits with
  | [] => JNull
  | h :: rest =>
      if truthy (canonical_field h) then canonical_field h
      else first_nonempty_field rest
  end.

(** A candidate as the lookup service documents it: a record whose
    [molecule_structures] entry is missing, empty or itself a record. *)
Definition well_formed_candidate (h : json) : bool :=
  match h with
  | JDict d =>
      match dict_lookup (lit "molecule_structures") d with
      | None => true
      | Some (JDict _) => true
      | Some ms => negb (truthy ms)
      end
  | _ => false
  end.

(** Every candidate up to and including the first match is well formed. *)
Fixpoint well_formed_upto_match (hits : list json) : bool :=
  match hits with
  | [] => true
  | h :: rest =>
      well_formed_candidate h
      && (truthy (canonical_field h) || well_formed_upto_match rest)
  end.

(** What the resolver makes of the world's answer to its one request. *)
Definition smiles_of_answer (a : request_failure + response) : json :=
  match a with
  | inl _ => JNull
  | inr r =>
      if (400 <=? status_code r) && (status_code r <? 600) then JNull
      else
        match json_body r with
        | None => JNull
        | Some data =>
            match smiles_of_data data with
            | Ok v => v
            | Raise _ => JNull
            end
        end
  end.

(** ** PNG headers *)

(** The pixel dimensions a PNG stream declares: after the 8-byte signature
    comes the IHDR chunk (length, type, then width and height as 4-byte
    big-endian integers). *)
Definition png_signature : list N := [137; 80; 78; 71; 13; 10; 26; 10]%N.
Definition ihdr_type : list N := [73; 72; 68; 82]%N.

Definition be32 (b3 b2 b1 b0 : N) : Z :=
  Z.of_N (((b3 * 256 + b2) * 256 + b1) * 256 + b0).

Definition png_dimensions (image : list byte) : option (Z * Z) :=
  match map Byte.to_N image with
  | s0 :: s1 :: s2 :: s3 :: s4 :: s5 :: s6 :: s7
    :: _ :: _ :: _ :: _
    :: t0 :: t1 :: t2 :: t3
    :: w3 :: w2 :: w1 :: w0
    :: h3 :: h2 :: h1 :: h0 :: _ =>
      if pystr_eqb [s0; s1; s2; s3; s4; s5; s6; s7] png_signature
         && pystr_eqb [t0; t1; t2; t3] ihdr_type
      then Some (be32 w3 w2 w1 w0, be32 h3 h2 h1 h0)
      else None
  | _ => None
  end.

(** ** A fixture world

    A deterministic stand-in for the three libraries, used to run the
    program on concrete inputs: the lookup service gives a fixed answer, the
    chemistry library knows ethanol only, and the drawing backend writes a
    PNG header for the canvas it is given. *)
Module Fixture.

Record mol := {
  heavy_atoms : nat;
  sanitized : bool;
  has_coords : bool
}.

Definition CCO : pystr := lit "CCO".

Definition parse (smiles : pystr) : option mol :=
  if pystr_eqb smiles CCO
  then Some {| heavy_atoms := 3; sanitized := true; has_coords := false |}
  else None.

Definition sanitize (m : mol) : option mol :=
  Some {| heavy_atoms := heavy_atoms m; sanitized := true;
          has_coords := has_coords m |}.

Definition layout (m : mol) : mol :=
  {| heavy_atoms := heavy_atoms m; sanitized := sanitized m;
     has_coords := true |}.

Definition byte_of (n : N) : byte :=
  match Byte.of_N n with
  | Some b => b
  | None => x00
  end.

Definition be32_bytes (z : Z) : list byte :=
  let n := Z.to_N z in
  [byte_of ((n / 16777216) mod 256); byte_of ((n / 65536) mod 256);
   byte_of ((n / 256) mod 256); byte_of (n mod 256)]%N.

Definition png_header (d : drawer mol) : list byte :=
  map byte_of png_signature
  ++ map byte_of [0; 0; 0; 13]%N
  ++ map byte_of ihdr_type
  ++ be32_bytes (d_width mol d) ++ be32_bytes (d_height mol d)
  ++ map byte_of [8; 6; 0; 0; 0]%N.

(** The state of the world counts the calls it has answered. *)
Definition world := nat.

Definition answer (http : request_failure + response)
  (X : Type) (e : event mol X) (w : world) : X * world :=
  (match e in event _ X return X with
   | ev_requests_get _ _ _ => http
   | ev_MolFromSmiles _ s => parse s
   | ev_SanitizeMol _ m => sanitize m
   | ev_Compute2DCoords _ m => layout m
   | ev_GetDrawingText _ d => Some (png_header d)
   | ev_st _ _ => tt
   end, S w).

Definition structures (smiles : json) : json :=
  JDict [(lit "molecule_structures",
          JDict [(lit "canonical_smiles", smiles)])].

(** A well-formed answer: the first candidate has no structure. *)
Definition found : request_failure + response :=
  inr {| status_code := 200;
         json_body := Some (JDict [(lit "molecules",
           JList [JDict [(lit "molecule_structures", JNull)];
                  structures (JStr CCO)])]) |}.

(** An answer whose first candidate is not as documented: its
    [molecule_structures] is a string. *)
Definition odd_hits : list json :=
  [JDict [(lit "molecule_structures", JStr (lit "x"))];
   structures (JStr CCO)].

Definition odd : request_failure + response :=
  inr {| status_code := 200;
         json_body := Some (JDict [(lit "molecules", JList odd_hits)]) |}.

Definition timed_out : request_failure + response := inl Timeout.

(** A compound the chemistry library does not know how to parse. *)
Definition garbled : request_failure + response :=
  inr {| status_code := 200;
         json_body := Some (JDict [(lit "molecules",
           JList [structures (JStr (lit "C1CC"))])]) |}.

End Fixture.


(** ** The log of a run

    The calls of a trace without their dependent typing: what was asked and
    what came back, in order. *)
Section Log.

Variable Mol : Type.

Inductive entry :=
| log_get (url : pystr) (timeout : Z) (a : request_failure + response)
| log_MolFromSmiles (smiles : pystr) (a : option Mol)
| log_SanitizeMol (mol : Mol) (a : option Mol)
| log_Compute2DCoords (mol a : Mol)
| log_GetDrawingText (d : drawer Mol) (text : list byte)
| log_drawing_refused (d : drawer Mol)
| log_st (c : ui_call).

Definition entry_of (c : called Mol) : entry :=
  match c with
  | Called e a =>
      match e in event _ X return X -> entry with
      | ev_requests_get _ url t => fun a => log_get url t a
      | ev_MolFromSmiles _ s => fun a => log_MolFromSmiles s a
      | ev_SanitizeMol _ m => fun a => log_SanitizeMol m a
      | ev_Compute2DCoords _ m => fun a => log_Compute2DCoords m a
      | ev_GetDrawingText _ d =>
          fun a =>
            match a with
            | Some text => log_GetDrawingText d text
            | None => log_drawing_refused d
            end
      | ev_st _ c => fun _ => log_st c
      end a
  end.

Definition is_log_get (x : entry) : bool :=
  match x with
  | log_get _ _ _ => true
  | _ => false
  end.

Definition is_log_error (x : entry) : bool :=
  match x with
  | log_st (st_error _) => true
  | _ => false
  end.

(** The shapes a run of the submitted branch can take, by where it ends:
    outcome and log. *)
Inductive script_run (name legend : pystr) (width height : Z)
  : result unit -> list entry -> Prop :=
| run_blank :
    strip name = [] ->
    script_run name legend width height (Raise StopException)
      [log_st (st_error msg_no_name); log_st st_stop]
| run_unencodable :
    strip name <> [] ->
    quote_plus (strip name) = Raise UnicodeEncodeError ->
    script_run name legend width height (Raise UnicodeEncodeError)
      [log_st (st_spinner spinner_text)]
| run_not_found q a :
    strip name <> [] ->
    quote_plus (strip name) = Ok q ->
    smiles_of_answer a = JNull ->
    script_run name legend width height (Raise StopException)
      [log_st (st_spinner spinner_text);
       log_get (search_url ++ q) 30 a;
       log_st (st_error msg_not_found); log_st st_stop]
| run_not_str q a :
    strip name <> [] ->
    quote_plus (strip name) = Ok q ->
    truthy (smiles_of_answer a) = true ->
    (forall s, smiles_of_answer a <> JStr s) ->
    script_run name legend width height (Raise TypeError)
      [log_st (st_spinner spinner_text);
       log_get (search_url ++ q) 30 a]
| run_invalid q a s :
    strip name <> [] ->
    quote_plus (strip name) = Ok q ->
    smiles_of_answer a = JStr s ->
    s <> [] ->
    script_run name legend width height (Raise StopException)
      [log_st (st_spinner spinner_text);
       log_get (search_url ++ q) 30 a;
       log_MolFromSmiles s None;
       log_st (st_error msg_invalid); log_st st_stop]
| run_unsanitized q a s m0 :
    strip name <> [] ->
    quote_plus (strip name) = Ok q ->
    smiles_of_answer a = JStr s ->
    s <> [] ->
    script_run name legend width height (Raise MolSanitizeException)
      [log_st (st_spinner spinner_text);
       log_get (search_url ++ q) 30 a;
       log_MolFromSmiles s (Some m0);
       log_SanitizeMol m0 None]
| run_no_image q a s m0 m1 m :
    strip name <> [] ->
    quote_plus (strip name) = Ok q ->
    smiles_of_answer a = JStr s ->
    s <> [] ->
    script_run name legend width height (Raise StopException)
      [log_st (st_spinner spinner_text);
       log_get (search_url ++ q) 30 a;
       log_MolFromSmiles s (Some m0);
       log_SanitizeMol m0 (Some m1);
       log_Compute2DCoords m1 m;
       log_GetDrawingText (canvas m legend (width, height)) [];
       log_st (st_error msg_no_image); log_st st_stop]
| run_done q a s m0 m1 m text :
    strip name <> [] ->
    quote_plus (strip name) = Ok q ->
    smiles_of_answer a = JStr s ->
    s <> [] ->
    text <> [] ->
    script_run name legend width height (Ok tt)
      [log_st (st_spinner spinner_text);
       log_get (search_url ++ q) 30 a;
       log_MolFromSmiles s (Some m0);
       log_SanitizeMol m0 (Some m1);
       log_Compute2DCoords m1 m;
       log_GetDrawingText (canvas m legend (width, height)) text;
       log_st (st_success "Done! Found SMILES: `" (JStr s) "`");
       log_st (st_image text legend);
       log_st (st_download_button download_label text
                 (strip name ++ lit ".png") "image/png")]
| run_unencodable_smiles q a s :
    strip name <> [] ->
    quote_plus (strip name) = Ok q ->
    smiles_of_answer a = JStr s ->
    utf8_encode s = None ->
    script_run name legend width height (Raise UnicodeEncodeError)
      [log_st (st_spinner spinner_text);
       log_get (search_url ++ q) 30 a]
| run_unencodable_caption q a s m0 m1 m :
    strip name <> [] ->
    quote_plus (strip name) = Ok q ->
    smiles_of_answer a = JStr s ->
    s <> [] ->
    utf8_encode legend = None ->
    script_run name legend width height (Raise UnicodeEncodeError)
      [log_st (st_spinner spinner_text);
       log_get (search_url ++ q) 30 a;
       log_MolFromSmiles s (Some m0);
       log_SanitizeMol m0 (Some m1);
       log_Compute2DCoords m1 m]
| run_refused q a s m0 m1 m :
    strip name <> [] ->
    quote_plus (strip name) = Ok q ->
    smiles_of_answer a = JStr s ->
    s <> [] ->
    script_run name legend width height (Raise RuntimeError)
      [log_st (st_spinner spinner_text);
       log_get (search_url ++ q) 30 a;
       log_MolFromSmiles s (Some m0);
       log_SanitizeMol m0 (Some m1);
       log_Compute2DCoords m1 m;
       log_drawing_refused (canvas m legend (width, height))].

End Log.

Arguments log_get {Mol} url timeout a.
Arguments log_MolFromSmiles {Mol} smiles a.
Arguments log_SanitizeMol {Mol} mol a.
Arguments log_Compute2DCoords {Mol} mol a.
Arguments log_GetDrawingText {Mol} d text.
Arguments log_drawing_refused {Mol} d.
Arguments log_st {Mol} c.
Arguments entry_of {Mol} c.
Arguments is_log_get {Mol} x.
Arguments is_log_error {Mol} x.
Arguments script_run {Mol} name legend width height _ _.

Definition log {Mol World R} (x : R * World * list (called Mol))
  : list (entry Mol) :=
  map entry_of (trace x).

(** ** What can go into a URL *)

(** The code points UTF-8 can encode: all but the surrogates. *)
Definition encodable (c : N) : bool :=
  ((c <? 55296) || (57343 <? c) && (c <? 1114112))%N.

(** What [quote_plus] lets through: the unreserved characters, [+] for a
    space and [%] opening an escape. *)
Definition query_safe (c : N) : bool :=
  (always_safe c || (c =? 43) || (c =? 37))%N.

(** The answers that are a failure of the lookup: no response, an error
    status, a body that is not JSON, or JSON of a shape the scan trips
    over. *)
Definition lookup_failed (a : request_failure + response) : bool :=
  match a with
  | inl _ => true
  | inr r =>
      (400 <=? status_code r) && (status_code r <? 600)
      || match json_body r with
         | None => true
         | Some data =>
             match smiles_of_data data with
             | Raise _ => true
             | Ok _ => false
             end
         end
  end.

(** ** A faulty world

    Like the fixture, but sanitization can be made to fail and the drawing
    backend writes the bytes it is told to. *)
Module Faulty.

Definition answer (http : request_failure + response) (sanitizes : bool)
  (text : list byte) (X : Type) (e : event Fixture.mol X) (w : Fixture.world)
  : X * Fixture.world :=
  (match e in event _ X return X with
   | ev_requests_get _ _ _ => http
   | ev_MolFromSmiles _ s => Fixture.parse s
   | ev_SanitizeMol _ m => if sanitizes then Fixture.sanitize m else None
   | ev_Compute2DCoords _ m => Fixture.layout m
   | ev_GetDrawingText _ _ => Some text
   | ev_st _ _ => tt
   end, S w).

(** An error status in front of a body that carries a match. *)
Definition refused : request_failure + response :=
  inr {| status_code := 503;
         json_body := Some (JDict [(lit "molecules",
           JList [Fixture.structures (JStr Fixture.CCO)])]) |}.

End Faulty.

(** * Properties *)

Example quote_plus_plain : quote_plus (lit "a b+c/~") = Ok (lit "a+b%2Bc%2F~").
Proof. reflexivity. Qed.

Example quote_plus_two_bytes : quote_plus [233%N] = Ok (lit "%C3%A9").
Proof. reflexivity. Qed.

Example quote_plus_four_bytes :
  quote_plus [128512%N] = Ok (lit "%F0%9F%98%80").
Proof. reflexivity. Qed.

Example strip_both_ends : strip (lit "  ab c ") = lit "ab c".
Proof. reflexivity. Qed.

(** ** The JSON scan *)

Lemma candidate_smiles_well_formed (h : json) :
  well_formed_candidate h = true ->
  candidate_smiles h = Ok (canonical_field h).
Proof.
  destruct h as [| | | | | |d]; simpl; try discriminate.
  unfold candidate_smiles, canonical_field; simpl.
  destruct (dict_lookup _ d) as [ms|] eqn:E; [|reflexivity].
  destruct ms as [|b|z|f|s|l|ms]; simpl; intros W.
  - reflexivity.
  - destruct b; [discriminate|reflexivity].
  - unfold py_or; simpl. destruct (z =? 0); [reflexivity|discriminate].
  - unfold py_or; simpl. destruct f; try discriminate; reflexivity.
  - destruct s; [reflexivity|discriminate].
  - destruct l; [reflexivity|discriminate].
  - unfold py_or; simpl. destruct ms; reflexivity.
Qed.

Lemma candidate_smiles_ill_formed (h : json) :
  well_formed_candidate h = false ->
  candidate_smiles h = Raise AttributeError.
Proof.
  destruct h as [| | | | | |d]; simpl; try reflexivity.
  unfold candidate_smiles; simpl.
  destruct (dict_lookup _ d) as [ms|] eqn:E; [|discriminate].
  destruct ms as [|b|z|f|s|l|ms]; simpl; try discriminate; intros W.
  - destruct b; [reflexivity|discriminate].
  - unfold py_or; simpl. destruct (z =? 0); [discriminate|reflexivity].
  - unfold py_or; simpl. destruct f; try discriminate; reflexivity.
  - destruct s; [discriminate|reflexivity].
  - destruct l; [discriminate|reflexivity].
Qed.

(** The scan raises nothing but [AttributeError]: a candidate without
    [.get]. *)
Lemma scan_hits_raises (hits : list json) (e : exn) :
  scan_hits hits = Raise e -> e = AttributeError.
Proof.
  induction hits as [|h rest IH]; simpl; [discriminate|].
  destruct (well_formed_candidate h) eqn:W.
  - rewrite (candidate_smiles_well_formed h W).
    destruct (truthy (canonical_field h)); [discriminate|exact IH].
  - rewrite (candidate_smiles_ill_formed h W). congruence.
Qed.

Lemma scan_hits_truthy (hits : list json) (v : json) :
  scan_hits hits = Ok v -> v = JNull \/ truthy v = true.
Proof.
  induction hits as [|h rest IH]; simpl.
  - intros [= <-]. now left.
  - destruct (candidate_smiles h) as [s|]; [|discriminate].
    destruct (truthy s) eqn:T; [|exact IH].
    intros [= <-]. now right.
Qed.

Lemma scan_hits_spec (hits : list json) :
  scan_hits hits =
    if well_formed_upto_match hits then Ok (first_nonempty_field hits)
    else Raise AttributeError.
Proof.
  induction hits as [|h rest IH]; simpl; [reflexivity|].
  destruct (well_formed_candidate h) eqn:W; simpl.
  - rewrite (candidate_smiles_well_formed h W).
    destruct (truthy (canonical_field h)); [reflexivity|exact IH].
  - now rewrite (candidate_smiles_ill_formed h W).
Qed.

Lemma smiles_of_data_raises (data : json) (e : exn) :
  smiles_of_data data = Raise e -> is_Exception e = true.
Proof.
  unfold smiles_of_data.
  destruct (py_get data _) as [m|e1] eqn:G; simpl.
  - destruct (py_iter _) as [hs|e2] eqn:I; simpl.
    + intros H. apply scan_hits_raises in H. now subst.
    + intros [= <-]. destruct (py_or m _); simpl in I; try discriminate;
        injection I as <-; reflexivity.
  - intros [= <-]. destruct data; simpl in G; try discriminate;
      injection G as <-; reflexivity.
Qed.

Lemma smiles_of_data_truthy (data v : json) :
  smiles_of_data data = Ok v -> v = JNull \/ truthy v = true.
Proof.
  unfold smiles_of_data.
  destruct (py_get data _) as [m|]; simpl; [|discriminate].
  destruct (py_iter _) as [hs|]; simpl; [|discriminate].
  apply scan_hits_truthy.
Qed.

Lemma smiles_of_answer_truthy (a : request_failure + response) :
  smiles_of_answer a = JNull \/ truthy (smiles_of_answer a) = true.
Proof.
  destruct a as [f|r]; simpl; [now left|].
  destruct (_ && _); [now left|].
  destruct (json_body r) as [data|]; [|now left].
  destruct (smiles_of_data data) as [v|] eqn:E; [|now left].
  exact (smiles_of_data_truthy _ _ E).
Qed.

Section Runs.

Context {Mol World : Type}.
Variable answer : forall X, event Mol X -> World -> X * World.

Lemma run_bind_ok {A B} (p : M Mol A) (f : A -> M Mol B) w a w1 t1 :
  run answer p w = (Ok a, w1, t1) ->
  run answer (bind p f) w =
    (outcome (run answer (f a) w1), final (run answer (f a) w1),
     t1 ++ trace (run answer (f a) w1)).
Proof.
  revert w t1. induction p as [[x|e]|X e k IH]; simpl; intros w t1.
  - intros [= -> -> <-]. now destruct (run answer (f a) w1) as [[? ?] ?].
  - discriminate.
  - destruct (answer X e w) as [x w'].
    destruct (run answer (k x) w') as [[r w2] t] eqn:E.
    intros [= -> -> <-]. now rewrite (IH x w' t E).
Qed.

Lemma run_bind_raise {A B} (p : M Mol A) (f : A -> M Mol B) w e w1 t1 :
  run answer p w = (Raise e, w1, t1) ->
  run answer (bind p f) w = (Raise e, w1, t1).
Proof.
  revert w t1. induction p as [[x|e']|X e' k IH]; simpl; intros w t1.
  - discriminate.
  - now intros [= -> -> <-].
  - destruct (answer X e' w) as [x w'].
    destruct (run answer (k x) w') as [[r w2] t] eqn:E.
    intros [= -> -> <-]. now rewrite (IH x w' t E).
Qed.

Lemma run_bind {A B} (p : M Mol A) (f : A -> M Mol B) (w : World) :
  run answer (bind p f) w =
    match outcome (run answer p w) with
    | Ok a =>
        (outcome (run answer (f a) (final (run answer p w))),
         final (run answer (f a) (final (run answer p w))),
         trace (run answer p w)
         ++ trace (run answer (f a) (final (run answer p w))))
    | Raise e => (Raise e, final (run answer p w), trace (run answer p w))
    end.
Proof.
  destruct (run answer p w) as [[[a|e] w1] t1] eqn:E.
  - now rewrite (run_bind_ok p f w a w1 t1 E).
  - now rewrite (run_bind_raise p f w e w1 t1 E).
Qed.

Lemma run_vis {R X} (e : event Mol X) (k : X -> prog Mol R) (w : World) :
  run answer (Vis e k) w =
    (outcome (run answer (k (fst (answer X e w))) (snd (answer X e w))),
     final (run answer (k (fst (answer X e w))) (snd (answer X e w))),
     Called e (fst (answer X e w))
     :: trace (run answer (k (fst (answer X e w))) (snd (answer X e w)))).
Proof.
  cbn [run]. destruct (answer X e w) as [a w1]; cbn [fst snd].
  now destruct (run answer (k a) w1) as [[r w2] t].
Qed.

(** The resolver builds its URL, asks once, and turns whatever comes back
    into a value. *)
Lemma run_get_smiles (name q : pystr) (w : World) :
  quote_plus name = Ok q ->
  let e := ev_requests_get Mol (search_url ++ q) 30 in
  run answer (get_smiles_from_chembl name) w =
    (Ok (smiles_of_answer (fst (answer _ e w))), snd (answer _ e w),
     [Called e (fst (answer _ e w))]).
Proof.
  intros Q e. unfold get_smiles_from_chembl. rewrite Q.
  cbn [lift bind try_except requests_get run raise ret].
  change (ev_requests_get Mol (search_url ++ q) 30) with e.
  destruct (answer _ e w) as [[f|r] w1]; simpl; [reflexivity|].
  unfold raise_for_status.
  destruct ((400 <=? status_code r) && (status_code r <? 600)); simpl;
    [reflexivity|].
  unfold response_json. destruct (json_body r) as [data|]; simpl;
    [|reflexivity].
  destruct (smiles_of_data data) as [v|x] eqn:E; simpl; [reflexivity|].
  now rewrite (smiles_of_data_raises _ _ E).
Qed.

Lemma run_get_smiles_unencodable (name : pystr) (w : World) :
  quote_plus name = Raise UnicodeEncodeError ->
  run answer (get_smiles_from_chembl name) w = (Raise UnicodeEncodeError, w, []).
Proof.
  intros Q. unfold get_smiles_from_chembl. now rewrite Q.
Qed.

Lemma quote_plus_cases (name : pystr) :
  (exists q, quote_plus name = Ok q)
  \/ quote_plus name = Raise UnicodeEncodeError.
Proof.
  unfold quote_plus. destruct (utf8_encode name); eauto.
Qed.

End Runs.

(** ** The resolver *)

Section Resolver.

Context {Mol World : Type}.
Variable answer : forall X, event Mol X -> World -> X * World.

(** C1 (as amended): when the request succeeds and the decoded body holds a
    list of candidates, the resolver returns the canonical structural field
    of the first candidate that carries a non-empty one, absent when the
    list is empty or no candidate carries one, provided every candidate up to
    that match is a record whose [molecule_structures] entry is missing,
    empty or a record; if a candidate before the match is not, the resolver
    returns absent. *)
Theorem C1_resolve_first_match
  (name q : pystr) (w w1 : World) (r : response)
  (d : list (pystr * json)) (hits : list json) :
  quote_plus name = Ok q ->
  answer _ (ev_requests_get Mol (search_url ++ q) 30) w = (inr r, w1) ->
  (400 <=? status_code r) && (status_code r <? 600) = false ->
  json_body r = Some (JDict d) ->
  dict_lookup (lit "molecules") d = Some (JList hits) ->
  outcome (run answer (get_smiles_from_chembl name) w) =
    Ok (if well_formed_upto_match hits then first_nonempty_field hits
        else JNull).
Proof.
  intros Q A S B L. rewrite (run_get_smiles answer name q w Q).
  unfold outcome; cbn [fst]. rewrite A; cbn [fst smiles_of_answer].
  rewrite S, B. unfold smiles_of_data. cbn [py_get rbind]. rewrite L.
  assert (E : (hs <- py_iter (py_or (JList hits) (JList [])) ;;
               scan_hits hs)%result = scan_hits hits)
    by (destruct hits; reflexivity).
  rewrite E, scan_hits_spec.
  now destruct (well_formed_upto_match hits).
Qed.

(** C2 (the code at the failing input): a name holding a lone surrogate
    cannot be percent-encoded; the URL is built before the first [try], so
    the error leaves the resolver, and no request is made. *)
Theorem C2_resolve_raises_on_lone_surrogate (w : World) :
  run answer (get_smiles_from_chembl [55296%N]) w
  = (Raise UnicodeEncodeError, w, []).
Proof. reflexivity. Qed.

(** Every name that can be encoded gets a value back: nothing is raised,
    and exactly one request is made. *)
Lemma get_smiles_returns (name q : pystr) (w : World) :
  quote_plus name = Ok q ->
  exists v a,
    outcome (run answer (get_smiles_from_chembl name) w) = Ok v
    /\ trace (run answer (get_smiles_from_chembl name) w)
       = [Called (ev_requests_get Mol (search_url ++ q) 30) a].
Proof.
  intros Q. rewrite (run_get_smiles answer name q w Q).
  eexists; eexists; split; reflexivity.
Qed.

(** The failure modes of the lookup all give the same absent result. *)
Lemma get_smiles_failure_modes (name q : pystr) (w : World) :
  quote_plus name = Ok q ->
  let a := fst (answer _ (ev_requests_get Mol (search_url ++ q) 30) w) in
  ((exists f, a = inl f)
   \/ (exists r, a = inr r /\ 400 <= status_code r < 600)
   \/ (exists r, a = inr r /\ json_body r = None)
   \/ (exists r data e, a = inr r /\ json_body r = Some data
                        /\ smiles_of_data data = Raise e)
   \/ (exists r data, a = inr r /\ json_body r = Some data
                      /\ smiles_of_data data = Ok JNull)) ->
  outcome (run answer (get_smiles_from_chembl name) w) = Ok JNull.
Proof.
  intros Q a H. rewrite (run_get_smiles answer name q w Q).
  unfold outcome; cbn [fst]. fold a. f_equal.
  destruct H as [[f ->]|[(r & -> & S)|[(r & -> & B)|[(r & data & e & -> & B & E)
                |(r & data & -> & B & E)]]]]; cbn [smiles_of_answer].
  - reflexivity.
  - replace ((400 <=? status_code r) && (status_code r <? 600)) with true
      by (symmetry; apply andb_true_iff; split;
          [apply Z.leb_le|apply Z.ltb_lt]; lia).
    reflexivity.
  - rewrite B. now destruct (_ && _).
  - rewrite B, E. now destruct (_ && _).
  - rewrite B, E. now destruct (_ && _).
Qed.

(** What the resolver returns is absent or truthy. *)
Lemma get_smiles_absent_or_truthy (name : pystr) (w : World) (v : json) :
  outcome (run answer (get_smiles_from_chembl name) w) = Ok v ->
  v = JNull \/ truthy v = true.
Proof.
  intros H. destruct (quote_plus_cases name) as [[q Q]|Q].
  - rewrite (run_get_smiles answer name q w Q) in H.
    unfold outcome in H; cbn [fst] in H. injection H as <-.
    apply smiles_of_answer_truthy.
  - rewrite (run_get_smiles_unencodable answer name w Q) in H.
    discriminate.
Qed.

(** C10: what the resolver returns is absent or truthy, never the empty
    string, so the script's [if not smiles] holds exactly for absent. *)
Theorem C10_resolve_never_empty (name : pystr) (w : World) (v : json) :
  outcome (run answer (get_smiles_from_chembl name) w) = Ok v ->
  (v = JNull \/ truthy v = true)
  /\ v <> JStr []
  /\ (negb (truthy v) = true <-> v = JNull).
Proof.
  intros H. pose proof (get_smiles_absent_or_truthy name w v H) as T.
  split; [exact T|split].
  - destruct T as [->| T]; [discriminate|]. intros ->. discriminate.
  - split.
    + destruct T as [->| T]; [reflexivity|]. rewrite T. discriminate.
    + now intros ->.
Qed.

End Resolver.

(** ** The parser *)

Section Parser.

Context {Mol World : Type}.
Variable answer : forall X, event Mol X -> World -> X * World.

(** How a run of the parser can go on a string that can be encoded. *)
Lemma run_smiles_to_mol (s : pystr) (w : World) :
  utf8_encode s <> None ->
  let r := run answer (smiles_to_mol (JStr s)) w in
  (s = [] /\ r = (Ok None, w, []))
  \/ (s <> [] /\ exists w1,
        answer _ (ev_MolFromSmiles Mol s) w = (None, w1)
        /\ r = (Ok None, w1, [Called (ev_MolFromSmiles Mol s) None]))
  \/ (s <> [] /\ exists m0 w1 w2,
        answer _ (ev_MolFromSmiles Mol s) w = (Some m0, w1)
        /\ answer _ (ev_SanitizeMol Mol m0) w1 = (None, w2)
        /\ r = (Raise MolSanitizeException, w2,
                [Called (ev_MolFromSmiles Mol s) (Some m0);
                 Called (ev_SanitizeMol Mol m0) None]))
  \/ (s <> [] /\ exists m0 m1 m w1 w2 w3,
        answer _ (ev_MolFromSmiles Mol s) w = (Some m0, w1)
        /\ answer _ (ev_SanitizeMol Mol m0) w1 = (Some m1, w2)
        /\ answer _ (ev_Compute2DCoords Mol m1) w2 = (m, w3)
        /\ r = (Ok (Some m), w3,
                [Called (ev_MolFromSmiles Mol s) (Some m0);
                 Called (ev_SanitizeMol Mol m0) (Some m1);
                 Called (ev_Compute2DCoords Mol m1) m])).
Proof.
  intros U.
  assert (D : s = [] \/ s <> [])
    by (destruct s; [now left|right; discriminate]).
  destruct D as [->|N]; [left; split; reflexivity|right].
  assert (T : truthy (JStr s) = true) by (destruct s; [contradiction|reflexivity]).
  destruct (utf8_encode s) as [bs|] eqn:E; [clear U|contradiction].
  unfold smiles_to_mol. rewrite T. cbn [negb].
  unfold Chem_MolFromSmiles. rewrite E. cbn.
  destruct (answer _ (ev_MolFromSmiles Mol s) w) as [[m0|] w1] eqn:P.
  2:{ left. split; [exact N|]. exists w1. split; reflexivity. }
  right. cbn.
  destruct (answer _ (ev_SanitizeMol Mol m0) w1) as [[m1|] w2] eqn:S.
  2:{ left. split; [exact N|]. exists m0, w1, w2. repeat split; assumption. }
  right. cbn.
  destruct (answer _ (ev_Compute2DCoords Mol m1) w2) as [m w3] eqn:C.
  split; [exact N|]. exists m0, m1, m, w1, w2, w3. repeat split; assumption.
Qed.

(** A string that cannot be encoded never reaches RDKit. *)
Lemma run_smiles_to_mol_unencodable (s : pystr) (w : World) :
  utf8_encode s = None ->
  run answer (smiles_to_mol (JStr s)) w = (Raise UnicodeEncodeError, w, []).
Proof.
  intros U.
  assert (T : truthy (JStr s) = true) by (destruct s; [discriminate|reflexivity]).
  unfold smiles_to_mol. rewrite T. cbn [negb].
  unfold Chem_MolFromSmiles. now rewrite U.
Qed.

(** A value that is not a string never becomes a molecule. *)
Lemma run_smiles_to_mol_not_str (v : json) (w : World) :
  (forall s, v <> JStr s) ->
  run answer (smiles_to_mol v) w = (Ok None, w, [])
  \/ run answer (smiles_to_mol v) w = (Raise TypeError, w, []).
Proof.
  intros H. unfold smiles_to_mol.
  destruct (truthy v); cbn; [|now left].
  destruct v; try (now right). now destruct (H s).
Qed.

(** C3 (the code at the failing input): an encoding that holds a lone
    surrogate cannot be handed to RDKit; [smiles_to_mol] has no handler, so
    the error leaves it instead of the absent result its docstring
    promises. *)
Theorem C3_parse_raises_on_lone_surrogate (w : World) :
  run answer (smiles_to_mol (JStr [55296%N])) w
  = (Raise UnicodeEncodeError, w, []).
Proof. reflexivity. Qed.

(** C4: the parser hands out a molecule only when the encoding was a string
    that parsed and the molecule then sanitized; when either step fails
    there is no molecule. *)
Theorem C4_mol_only_from_valid (smiles : json) (w : World) (m : Mol) :
  outcome (run answer (smiles_to_mol smiles) w) = Ok (Some m) ->
  exists s m0 m1 w1 w2,
    smiles = JStr s
    /\ answer _ (ev_MolFromSmiles Mol s) w = (Some m0, w1)
    /\ answer _ (ev_SanitizeMol Mol m0) w1 = (Some m1, w2)
    /\ fst (answer _ (ev_Compute2DCoords Mol m1) w2) = m
    /\ trace (run answer (smiles_to_mol smiles) w)
       = [Called (ev_MolFromSmiles Mol s) (Some m0);
          Called (ev_SanitizeMol Mol m0) (Some m1);
          Called (ev_Compute2DCoords Mol m1) m].
Proof.
  intros H.
  assert (S : exists s, smiles = JStr s).
  { destruct smiles as [| | | |s| |]; eauto;
      match type of H with
      | context [smiles_to_mol ?v] =>
          destruct (run_smiles_to_mol_not_str v w
                      ltac:(intros s; discriminate)) as [E|E];
          rewrite E in H; discriminate
      end. }
  destruct S as [s ->]. exists s.
  destruct (utf8_encode s) as [bs|] eqn:U.
  2:{ rewrite (run_smiles_to_mol_unencodable s w U) in H. discriminate. }
  destruct (run_smiles_to_mol s w ltac:(rewrite U; discriminate))
    as [[_ E]|[(_ & w1 & _ & E)|[(_ & m0 & w1 & w2 & _ & _ & E)
       |(_ & m0 & m1 & m' & w1 & w2 & w3 & P & S & C & E)]]];
    cbn zeta in E; rewrite E in H; try discriminate.
  injection H as <-. exists m0, m1, w1, w2. rewrite E, C.
  repeat split; assumption.
Qed.

(** Validation and construction fail together. *)
Lemma smiles_to_mol_fails_with_validation (s : pystr) (w : World) :
  utf8_encode s <> None ->
  (fst (answer _ (ev_MolFromSmiles Mol s) w) = None ->
   outcome (run answer (smiles_to_mol (JStr s)) w) = Ok None)
  /\ (forall m0 w1,
        answer _ (ev_MolFromSmiles Mol s) w = (Some m0, w1) ->
        fst (answer _ (ev_SanitizeMol Mol m0) w1) = None ->
        s <> [] ->
        outcome (run answer (smiles_to_mol (JStr s)) w)
        = Raise MolSanitizeException).
Proof.
  intros U.
  destruct (run_smiles_to_mol s w U)
    as [[N E]|[(_ & w1 & P & E)|[(_ & m0 & w1 & w2 & P & S & E)
       |(_ & m0 & m1 & m' & w1 & w2 & w3 & P & S & C & E)]]];
    cbn zeta in E; rewrite E; unfold outcome; cbn [fst]; split.
  - reflexivity.
  - intros m0 w1 _ _ H. now destruct H.
  - reflexivity.
  - intros m0 w1' P'. rewrite P in P'. discriminate.
  - rewrite P. discriminate.
  - reflexivity.
  - rewrite P. discriminate.
  - intros ? ? P'. rewrite P in P'. injection P' as <- <-. rewrite S.
    discriminate.
Qed.

End Parser.

(** ** The renderer *)

Section Renderer.

Context {Mol World : Type}.
Variable answer : forall X, event Mol X -> World -> X * World.

(** With a caption that can be encoded, the renderer asks the backend once
    and returns what it wrote, or raises where it refuses. *)
Lemma run_mol_to_png_bytes (m : Mol) (legend : pystr) (size : Z * Z)
  (w : World) :
  utf8_encode legend <> None ->
  let e := ev_GetDrawingText Mol (canvas m legend size) in
  run answer (mol_to_png_bytes (Some m) legend size) w =
    (match fst (answer _ e w) with
     | Some text => Ok (Some text)
     | None => Raise RuntimeError
     end, snd (answer _ e w), [Called e (fst (answer _ e w))]).
Proof.
  intros U. destruct size as [wd ht].
  destruct (utf8_encode legend) as [bs|] eqn:E; [clear U|contradiction].
  unfold mol_to_png_bytes, PrepareAndDrawMolecule. rewrite E. cbn.
  change (FinishDrawing _ _) with (canvas m legend (wd, ht)).
  now destruct (answer _ _ w) as [[text|] w1].
Qed.

(** A caption that cannot be encoded stops the renderer before the backend
    is asked. *)
Lemma run_mol_to_png_bytes_unencodable (m : Mol) (legend : pystr)
  (size : Z * Z) (w : World) :
  utf8_encode legend = None ->
  run answer (mol_to_png_bytes (Some m) legend size) w
  = (Raise UnicodeEncodeError, w, []).
Proof.
  intros U. destruct size as [wd ht].
  unfold mol_to_png_bytes, PrepareAndDrawMolecule. now rewrite U.
Qed.

(** C5: for a valid encoding and a width and height between 200 and 4000,
    parsing and then rendering, with any caption that can be encoded as
    UTF-8 (the default empty caption is one), gives a non-empty image whose
    header declares the requested width and height, given that the drawing
    backend writes, for a finished canvas within Cairo's size limit, a
    non-empty PNG of the canvas's dimensions. *)
Theorem C5_parse_then_render_dimensions
  (s legend : pystr) (width height : Z) (w : World) (m : Mol) :
  (forall d w',
      d_finished Mol d = true ->
      0 < d_width Mol d <= 32767 ->
      0 < d_height Mol d <= 32767 ->
      exists text,
        fst (answer _ (ev_GetDrawingText Mol d) w') = Some text
        /\ text <> []
        /\ png_dimensions text = Some (d_width Mol d, d_height Mol d)) ->
  utf8_encode legend <> None ->
  200 <= width <= 4000 ->
  200 <= height <= 4000 ->
  outcome (run answer (smiles_to_mol (JStr s)) w) = Ok (Some m) ->
  exists image,
    outcome (run answer
               (bind (smiles_to_mol (JStr s))
                  (fun mol => mol_to_png_bytes mol legend (width, height)))
               w)
    = Ok (Some image)
    /\ image <> []
    /\ png_dimensions image = Some (width, height).
Proof.
  intros Hlib U Hw Hh P. rewrite run_bind, P. cbn [outcome fst].
  rewrite (run_mol_to_png_bytes _ _ _ _ U). cbn [fst].
  destruct (Hlib (canvas m legend (width, height))
              (final (run answer (smiles_to_mol (JStr s)) w))
              eq_refl ltac:(cbn; lia) ltac:(cbn; lia))
    as (text & A & N & D).
  rewrite A. exists text. repeat split; assumption.
Qed.


End Renderer.

(** ** The script *)

Section Script.

Context {Mol World : Type}.
Variable answer : forall X, event Mol X -> World -> X * World.

Lemma lstrip_spaces (s : pystr) : forallb isspace s = true -> lstrip s = [].
Proof.
  induction s as [|c s IH]; cbn [forallb lstrip]; [reflexivity|].
  intros H. apply andb_true_iff in H as [-> H]. exact (IH H).
Qed.

Lemma strip_spaces (s : pystr) : forallb isspace s = true -> strip s = [].
Proof.
  intros H. unfold strip. now rewrite (lstrip_spaces s H).
Qed.

(** [st.error(body)] then [st.stop()]. *)
Lemma run_error_stop (body : string) (w : World) :
  let w1 := snd (answer _ (ev_st Mol (st_error body)) w) in
  run answer (bind (st (st_error body)) (fun _ => stop)) w =
    (Raise StopException, snd (answer _ (ev_st Mol st_stop) w1),
     [Called (ev_st Mol (st_error body)) tt; Called (ev_st Mol st_stop) tt]).
Proof.
  cbn. destruct (answer _ (ev_st Mol (st_error body)) w) as [[] w1]. cbn.
  now destruct (answer _ (ev_st Mol st_stop) w1) as [[] w2].
Qed.

Lemma run_st (c : ui_call) (w : World) :
  run answer (st c) w =
    (Ok tt, snd (answer _ (ev_st Mol c) w), [Called (ev_st Mol c) tt]).
Proof.
  cbn. now destruct (answer _ (ev_st Mol c) w) as [[] w1].
Qed.

Lemma trace_get_smiles (name : pystr) (w : World) :
  existsb is_parser_call
    (trace (run answer (get_smiles_from_chembl name) w)) = false
  /\ existsb is_renderer_call
       (trace (run answer (get_smiles_from_chembl name) w)) = false.
Proof.
  destruct (quote_plus_cases name) as [[q Q]|Q].
  - rewrite (run_get_smiles answer name q w Q). split; reflexivity.
  - rewrite (run_get_smiles_unencodable answer name w Q). split; reflexivity.
Qed.

Lemma trace_smiles_to_mol (v : json) (w : World) :
  existsb is_renderer_call (trace (run answer (smiles_to_mol v) w)) = false.
Proof.
  assert (S : (exists s, v = JStr s) \/ (forall s, v <> JStr s))
    by (destruct v; try (right; intros ?; discriminate); left; eauto).
  destruct S as [[s ->]|S].
  - destruct (utf8_encode s) as [bs|] eqn:U.
    + destruct (run_smiles_to_mol answer s w ltac:(rewrite U; discriminate))
        as [[_ E]|[(_ & w1 & _ & E)|[(_ & m0 & w1 & w2 & _ & _ & E)
           |(_ & m0 & m1 & m' & w1 & w2 & w3 & _ & _ & _ & E)]]];
        cbn zeta in E; rewrite E; reflexivity.
    + now rewrite (run_smiles_to_mol_unencodable answer s w U).
  - destruct (run_smiles_to_mol_not_str answer v w S) as [E|E];
      rewrite E; reflexivity.
Qed.

(** C9: an empty or whitespace-only name stops the run at once with the
    validation message; the trace holds the two Streamlit calls and no
    request. *)
Theorem C9_blank_name_no_network_call
  (name legend : pystr) (width height : Z) (w : World) :
  forallb isspace name = true ->
  let r := run answer (pipeline name width height legend) w in
  outcome r = Raise StopException
  /\ trace r = [Called (ev_st Mol (st_error msg_no_name)) tt;
                Called (ev_st Mol st_stop) tt]
  /\ existsb is_network_call (trace r) = false.
Proof.
  intros H r. subst r. unfold pipeline.
  rewrite (strip_spaces name H). cbn [truthy negb when].
  rewrite run_bind, run_error_stop. cbn [outcome fst trace snd].
  repeat split; reflexivity.
Qed.

(** C8: once the name has passed validation, the stages run in the order
    resolver, parser, renderer, and the run halts at the first one that
    returns nothing.  An absent result of the resolver ends the run with the
    lookup-failure message, and the trace is the resolver's calls and nothing
    of the parser or the renderer; a present result on which the parser
    returns absent ends the run with the invalid-structure message, and the
    trace holds nothing of the renderer; an absent or empty result of the
    renderer ends the run with the rendering message. *)
Theorem C8_pipeline_short_circuits
  (name legend : pystr) (width height : Z) (w : World) :
  strip name <> [] ->
  let spin := ev_st Mol (st_spinner spinner_text) in
  let lookup :=
    run answer (get_smiles_from_chembl (strip name))
      (snd (answer _ spin w)) in
  let whole := run answer (pipeline name width height legend) w in
  (outcome lookup = Ok JNull ->
   outcome whole = Raise StopException
   /\ trace whole
      = Called spin tt
        :: trace lookup
        ++ [Called (ev_st Mol (st_error msg_not_found)) tt;
            Called (ev_st Mol st_stop) tt]
   /\ existsb is_parser_call (trace whole) = false
   /\ existsb is_renderer_call (trace whole) = false)
  /\ (forall smiles,
        outcome lookup = Ok smiles ->
        smiles <> JNull ->
        let parse := run answer (smiles_to_mol smiles) (final lookup) in
        outcome parse = Ok None ->
        outcome whole = Raise StopException
        /\ trace whole
           = Called spin tt
             :: trace lookup ++ trace parse
             ++ [Called (ev_st Mol (st_error msg_invalid)) tt;
                 Called (ev_st Mol st_stop) tt]
        /\ existsb is_renderer_call (trace whole) = false)
  /\ (forall smiles m png,
        outcome lookup = Ok smiles ->
        smiles <> JNull ->
        let parse := run answer (smiles_to_mol smiles) (final lookup) in
        outcome parse = Ok (Some m) ->
        let render :=
          run answer (mol_to_png_bytes (Some m) legend (width, height))
            (final parse) in
        outcome render = Ok png ->
        bytes_truthy png = false ->
        outcome whole = Raise StopException
        /\ trace whole
           = Called spin tt
             :: trace lookup ++ trace parse ++ trace render
             ++ [Called (ev_st Mol (st_error msg_no_image)) tt;
                 Called (ev_st Mol st_stop) tt]).
Proof.
  intros N spin lookup whole.
  assert (V : negb (truthy (JStr (strip name))) = false)
    by (destruct (strip name); [contradiction|reflexivity]).
  destruct (trace_get_smiles (strip name) (snd (answer _ spin w)))
    as [TP TR]. fold lookup in TP, TR.
  subst whole. unfold pipeline. rewrite V.
  cbn [when ret bind]. rewrite run_bind, run_st. fold spin.
  cbn [outcome fst snd trace final app]. rewrite run_bind. fold lookup.
  assert (T : forall smiles,
             outcome lookup = Ok smiles -> smiles <> JNull ->
             truthy smiles = true).
  { intros smiles L NN.
    now destruct (get_smiles_absent_or_truthy answer _ _ _ L). }
  split; [|split].
  - intros L. rewrite L. cbn [truthy negb when].
    rewrite run_bind, run_error_stop.
    cbn [outcome fst trace snd final app].
    repeat split; cbn [existsb is_parser_call is_renderer_call orb];
      rewrite existsb_app; [rewrite TP|rewrite TR]; reflexivity.
  - intros smiles L NN P.
    set (parse := run answer (smiles_to_mol smiles) (final lookup)) in *.
    rewrite L, (T smiles L NN). cbn [negb when ret bind].
    rewrite run_bind. fold parse. rewrite P.
    cbn [when]. rewrite run_bind, run_error_stop.
    cbn [outcome fst trace snd final].
    repeat split; cbn [existsb is_renderer_call orb];
      rewrite !existsb_app, TR.
    subst parse. now rewrite trace_smiles_to_mol.
  - intros smiles m png L NN P R B.
    set (parse := run answer (smiles_to_mol smiles) (final lookup)) in *.
    set (render := run answer
                     (mol_to_png_bytes (Some m) legend (width, height))
                     (final parse)) in *.
    rewrite L, (T smiles L NN). cbn [negb when ret bind].
    rewrite run_bind. fold parse. rewrite P.
    cbn [when ret bind outcome fst trace snd final].
    rewrite run_bind. fold render. rewrite R, B.
    cbn [negb when]. rewrite run_bind, run_error_stop.
    cbn [outcome fst trace snd final].
    split; reflexivity.
Qed.

End Script.

(** ** The fixture world at work *)

Lemma to_N_byte_of (n : N) : (n < 256)%N -> Byte.to_N (Fixture.byte_of n) = n.
Proof.
  intros H. unfold Fixture.byte_of.
  destruct (Byte.of_N n) as [b|] eqn:E.
  - now apply Byte.to_of_N.
  - apply Byte.of_N_None_iff in E. lia.
Qed.

Lemma base256_digits (n : N) :
  (n < 4294967296)%N ->
  (((n / 16777216 mod 256 * 256 + n / 65536 mod 256) * 256
    + n / 256 mod 256) * 256 + n mod 256)%N = n.
Proof.
  intros B. zify. Z.to_euclidean_division_equations. lia.
Qed.

Lemma be32_bytes_decode (z : Z) :
  0 <= z < 4294967296 ->
  match map Byte.to_N (Fixture.be32_bytes z) with
  | [b3; b2; b1; b0] => be32 b3 b2 b1 b0 = z
  | _ => False
  end.
Proof.
  intros H. unfold Fixture.be32_bytes. cbn [map].
  rewrite !to_N_byte_of by (apply N.mod_lt; discriminate).
  unfold be32.
  assert (E : (((Z.to_N z / 16777216 mod 256 * 256
                 + Z.to_N z / 65536 mod 256) * 256
                + Z.to_N z / 256 mod 256) * 256 + Z.to_N z mod 256)%N
              = Z.to_N z).
  { apply base256_digits. lia. }
  rewrite E. lia.
Qed.

(** The fixture backend keeps the contract asked of a drawing backend. *)
Lemma fixture_png (d : drawer Fixture.mol) :
  0 < d_width _ d <= 32767 ->
  0 < d_height _ d <= 32767 ->
  Fixture.png_header d <> []
  /\ png_dimensions (Fixture.png_header d)
     = Some (d_width _ d, d_height _ d).
Proof.
  intros Hw Hh. split; [discriminate|].
  pose proof (be32_bytes_decode (d_width _ d) ltac:(lia)) as W.
  pose proof (be32_bytes_decode (d_height _ d) ltac:(lia)) as H.
  unfold png_dimensions, Fixture.png_header.
  unfold Fixture.be32_bytes in *. cbn [map app] in *.
  cbn [png_signature ihdr_type map app].
  rewrite !to_N_byte_of by reflexivity.
  cbn [pystr_eqb N.eqb Pos.eqb andb]. now rewrite W, H.
Qed.

Example resolve_ethanol :
  run (Fixture.answer Fixture.found) (get_smiles_from_chembl (lit "ethanol"))
    0%nat
  = (Ok (JStr Fixture.CCO), 1%nat,
     [Called (ev_requests_get Fixture.mol
                (search_url ++ lit "ethanol") 30) Fixture.found]).
Proof. reflexivity. Qed.

Example resolve_timeout :
  outcome (run (Fixture.answer Fixture.timed_out)
             (get_smiles_from_chembl (lit "ethanol")) 0%nat)
  = Ok JNull.
Proof. reflexivity. Qed.

(** A name with a lone surrogate passes the script's validation, and the
    encoding error then leaves the script after the spinner has started. *)
Example pipeline_lone_surrogate :
  run (Fixture.answer Fixture.found) (pipeline [55296%N] 1200 800 []) 0%nat
  = (Raise UnicodeEncodeError, 1%nat,
     [Called (ev_st _ (st_spinner spinner_text)) tt]).
Proof. reflexivity. Qed.

Lemma C1_resolve_first_match_witness :
  outcome (run (Fixture.answer Fixture.found)
             (get_smiles_from_chembl (lit "ethanol")) 0%nat)
  = Ok (JStr Fixture.CCO).
Proof.
  exact (C1_resolve_first_match (Fixture.answer Fixture.found)
           (lit "ethanol") (lit "ethanol") 0%nat 1%nat _ _ _
           eq_refl eq_refl eq_refl eq_refl eq_refl).
Defined.

(** The claim as the specification words it fails when a candidate that is
    not as documented comes before the match: the specification's first
    candidate with a non-empty field is the second one, yet the resolver
    returns absent. *)
Lemma C1_counterexample :
  first_nonempty_field Fixture.odd_hits = JStr Fixture.CCO
  /\ outcome (run (Fixture.answer Fixture.odd)
                (get_smiles_from_chembl (lit "ethanol")) 0%nat)
     = Ok JNull
  /\ outcome (run (Fixture.answer Fixture.odd)
                (get_smiles_from_chembl (lit "ethanol")) 0%nat)
     <> Ok (first_nonempty_field Fixture.odd_hits).
Proof.
  split; [reflexivity|split; [reflexivity|discriminate]].
Qed.

Lemma C4_mol_only_from_valid_witness :
  exists s m0 m1 w1 w2,
    JStr Fixture.CCO = JStr s
    /\ Fixture.answer Fixture.found _ (ev_MolFromSmiles _ s) 0%nat
       = (Some m0, w1)
    /\ Fixture.answer Fixture.found _ (ev_SanitizeMol _ m0) w1
       = (Some m1, w2)
    /\ fst (Fixture.answer Fixture.found _ (ev_Compute2DCoords _ m1) w2)
       = Fixture.layout {| Fixture.heavy_atoms := 3;
                           Fixture.sanitized := true;
                           Fixture.has_coords := false |}
    /\ trace (run (Fixture.answer Fixture.found)
                (smiles_to_mol (JStr Fixture.CCO)) 0%nat)
       = [Called (ev_MolFromSmiles _ s) (Some m0);
          Called (ev_SanitizeMol _ m0) (Some m1);
          Called (ev_Compute2DCoords _ m1)
            (Fixture.layout {| Fixture.heavy_atoms := 3;
                               Fixture.sanitized := true;
                               Fixture.has_coords := false |})].
Proof.
  apply (C4_mol_only_from_valid (Fixture.answer Fixture.found)
           (JStr Fixture.CCO) 0%nat).
  reflexivity.
Defined.

Lemma C5_parse_then_render_dimensions_witness :
  exists image,
    outcome (run (Fixture.answer Fixture.found)
               (bind (smiles_to_mol (JStr Fixture.CCO))
                  (fun mol => mol_to_png_bytes mol [] (1200, 800)))
               0%nat)
    = Ok (Some image)
    /\ image <> []
    /\ png_dimensions image = Some (1200, 800).
Proof.
  apply (C5_parse_then_render_dimensions (Fixture.answer Fixture.found)
           Fixture.CCO [] 1200 800 0%nat
           (Fixture.layout {| Fixture.heavy_atoms := 3;
                              Fixture.sanitized := true;
                              Fixture.has_coords := false |})).
  - intros d w' _ Hw Hh. exists (Fixture.png_header d).
    split; [reflexivity|]. now apply fixture_png.
  - simpl. discriminate.
  - lia.
  - lia.
  - reflexivity.
Defined.


Lemma C8_pipeline_short_circuits_witness :
  (outcome (run (Fixture.answer Fixture.timed_out)
              (pipeline (lit " ethanol ") 1200 800 []) 0%nat)
   = Raise StopException
   /\ trace (run (Fixture.answer Fixture.timed_out)
               (pipeline (lit " ethanol ") 1200 800 []) 0%nat)
      = [Called (ev_st _ (st_spinner spinner_text)) tt;
         Called (ev_requests_get _ (search_url ++ lit "ethanol") 30)
           Fixture.timed_out;
         Called (ev_st _ (st_error msg_not_found)) tt;
         Called (ev_st _ st_stop) tt])
  /\ (outcome (run (Fixture.answer Fixture.garbled)
                 (pipeline (lit "ethanol") 1200 800 []) 0%nat)
      = Raise StopException
      /\ trace (run (Fixture.answer Fixture.garbled)
                  (pipeline (lit "ethanol") 1200 800 []) 0%nat)
         = [Called (ev_st _ (st_spinner spinner_text)) tt;
            Called (ev_requests_get _ (search_url ++ lit "ethanol") 30)
              Fixture.garbled;
            Called (ev_MolFromSmiles _ (lit "C1CC")) None;
            Called (ev_st _ (st_error msg_invalid)) tt;
            Called (ev_st _ st_stop) tt]).
Proof.
  split.
  - destruct (C8_pipeline_short_circuits (Fixture.answer Fixture.timed_out)
                (lit " ethanol ") [] 1200 800 0%nat
                ltac:(simpl; discriminate)) as [H _].
    destruct (H eq_refl) as (O & T & _). split; [exact O|exact T].
  - destruct (C8_pipeline_short_circuits (Fixture.answer Fixture.garbled)
                (lit "ethanol") [] 1200 800 0%nat
                ltac:(simpl; discriminate)) as [_ [H _]].
    destruct (H (JStr (lit "C1CC")) eq_refl ltac:(discriminate) eq_refl)
      as (O & T & _).
    split; [exact O|exact T].
Defined.

Lemma C9_blank_name_no_network_call_witness :
  let r := run (Fixture.answer Fixture.found)
             (pipeline (lit "   ") 1200 800 []) 0%nat in
  outcome r = Raise StopException
  /\ trace r = [Called (ev_st _ (st_error msg_no_name)) tt;
                Called (ev_st _ st_stop) tt]
  /\ existsb is_network_call (trace r) = false.
Proof.
  apply (C9_blank_name_no_network_call (Fixture.answer Fixture.found)
           (lit "   ") [] 1200 800 0%nat).
  reflexivity.
Defined.

Lemma C10_resolve_never_empty_witness :
  (JStr Fixture.CCO = JNull \/ truthy (JStr Fixture.CCO) = true)
  /\ JStr Fixture.CCO <> JStr []
  /\ (negb (truthy (JStr Fixture.CCO)) = true <-> JStr Fixture.CCO = JNull).
Proof.
  apply (C10_resolve_never_empty (Fixture.answer Fixture.found)
           (lit "ethanol") 0%nat (JStr Fixture.CCO)).
  reflexivity.
Defined.

(** * More of the code *)

(** ** Trimming *)

Lemma lstrip_split (s : pystr) :
  exists pre, s = pre ++ lstrip s /\ forallb isspace pre = true.
Proof.
  induction s as [|c s (pre & E & P)]; [now exists []|].
  cbn [lstrip]. destruct (isspace c) eqn:C.
  - exists (c :: pre). cbn. rewrite C, P. split; [now f_equal|reflexivity].
  - now exists [].
Qed.

Lemma lstrip_head (s : pystr) (c : N) (rest : pystr) :
  lstrip s = c :: rest -> isspace c = false.
Proof.
  induction s as [|x s IH]; cbn [lstrip]; [discriminate|].
  destruct (isspace x) eqn:X; [exact IH|]. now intros [= <- _].
Qed.

Lemma forallb_rev {A} (f : A -> bool) (l : list A) :
  forallb f (rev l) = forallb f l.
Proof.
  induction l as [|x l IH]; [reflexivity|].
  cbn. rewrite forallb_app, IH. cbn. rewrite andb_true_r. apply andb_comm.
Qed.

(** What [strip] keeps and what it drops. *)
Lemma strip_split (s : pystr) :
  exists pre post,
    s = pre ++ strip s ++ post
    /\ forallb isspace pre = true
    /\ forallb isspace post = true.
Proof.
  destruct (lstrip_split s) as (pre & E & P).
  destruct (lstrip_split (rev (lstrip s))) as (p2 & E2 & P2).
  exists pre, (rev p2). split; [|split].
  - rewrite E at 1. f_equal. unfold strip.
    rewrite <- rev_app_distr, <- E2. now rewrite rev_involutive.
  - exact P.
  - now rewrite forallb_rev.
Qed.

Lemma strip_not_blank (s : pystr) :
  forallb isspace s = false -> strip s <> [].
Proof.
  intros H E. destruct (strip_split s) as (pre & post & S & P & Q).
  rewrite E in S. cbn in S. rewrite S, forallb_app, P, Q in H. discriminate.
Qed.

(** X8: [name.strip()] is the name without the whitespace at its two ends
    and nothing else: the name is some whitespace, the stripped name, some
    whitespace, and the stripped name neither starts nor ends with
    whitespace. *)
Theorem X8_strip_removes_outer_whitespace (s : pystr) :
  exists pre post,
    s = pre ++ strip s ++ post
    /\ forallb isspace pre = true
    /\ forallb isspace post = true
    /\ match strip s with
       | [] => True
       | c :: _ => isspace c = false
       end
    /\ match rev (strip s) with
       | [] => True
       | c :: _ => isspace c = false
       end.
Proof.
  destruct (strip_split s) as (pre & post & S & P & Q).
  exists pre, post. repeat (split; [assumption|]). split.
  - destruct (strip s) as [|c rest] eqn:E; [exact I|].
    destruct (lstrip_split s) as (pre' & E' & _).
    assert (L : exists tl, lstrip s = c :: tl).
    { unfold strip in E.
      destruct (lstrip_split (rev (lstrip s))) as (p2 & E2 & _).
      apply (f_equal (@rev N)) in E2.
      rewrite rev_involutive, rev_app_distr, E in E2. cbn in E2. eauto. }
    destruct L as [tl L]. exact (lstrip_head _ _ _ L).
  - unfold strip. rewrite rev_involutive.
    destruct (lstrip (rev (lstrip s))) as [|c rest] eqn:E; [exact I|].
    exact (lstrip_head _ _ _ E).
Qed.

(** ** Percent-encoding *)

Ltac to_arith H :=
  repeat first
    [ rewrite orb_true_iff in H | rewrite andb_true_iff in H
    | rewrite orb_false_iff in H | rewrite andb_false_iff in H
    | rewrite N.leb_le in H | rewrite N.ltb_lt in H | rewrite N.eqb_eq in H
    | rewrite N.leb_gt in H | rewrite N.ltb_ge in H | rewrite N.eqb_neq in H ].

Ltac ndiv := zify; Z.to_euclidean_division_equations; lia.

Lemma utf8_char_encodable (c : N) :
  utf8_char c = None <-> encodable c = false.
Proof.
  unfold utf8_char, encodable.
  destruct (N.ltb_spec c 128), (N.ltb_spec c 2048),
    (N.leb_spec 55296 c), (N.leb_spec c 57343), (N.ltb_spec c 65536),
    (N.ltb_spec c 1114112), (N.ltb_spec c 55296), (N.ltb_spec 57343 c);
    cbn; split; intros E; try discriminate E; try reflexivity; lia.
Qed.

Lemma utf8_encode_encodable (s : pystr) :
  utf8_encode s = None <-> forallb encodable s = false.
Proof.
  induction s as [|c s IH]; cbn; [split; discriminate|].
  destruct (utf8_char c) as [bs|] eqn:C.
  - assert (E : encodable c = true).
    { destruct (encodable c) eqn:E; [reflexivity|].
      apply utf8_char_encodable in E. congruence. }
    rewrite E. cbn. destruct (utf8_encode s); [|tauto].
    split; [discriminate|]. intros H. apply IH in H. discriminate.
  - apply utf8_char_encodable in C. rewrite C. cbn. tauto.
Qed.

Lemma utf8_char_bytes (c : N) (bs : list N) :
  utf8_char c = Some bs -> Forall (fun b => (b < 256)%N) bs.
Proof.
  unfold utf8_char.
  destruct (N.ltb_spec c 128).
  { intros E. apply (f_equal (fun o => match o with Some x => x | None => [] end)) in E.
    subst bs. repeat apply Forall_cons; try apply Forall_nil; lia. }
  destruct (N.ltb_spec c 2048).
  { intros E. apply (f_equal (fun o => match o with Some x => x | None => [] end)) in E.
    subst bs. repeat apply Forall_cons; try apply Forall_nil; ndiv. }
  destruct ((55296 <=? c) && (c <=? 57343))%N; [discriminate|].
  destruct (N.ltb_spec c 65536).
  { intros E. apply (f_equal (fun o => match o with Some x => x | None => [] end)) in E.
    subst bs. repeat apply Forall_cons; try apply Forall_nil; ndiv. }
  destruct (N.ltb_spec c 1114112); [|discriminate].
  intros E. apply (f_equal (fun o => match o with Some x => x | None => [] end)) in E.
  subst bs. repeat apply Forall_cons; try apply Forall_nil; ndiv.
Qed.

Lemma utf8_encode_bytes (s : pystr) (bs : list N) :
  utf8_encode s = Some bs -> Forall (fun b => (b < 256)%N) bs.
Proof.
  revert bs. induction s as [|c s IH]; cbn; intros bs.
  - intros [= <-]. constructor.
  - destruct (utf8_char c) as [b1|] eqn:C; [|discriminate].
    destruct (utf8_encode s) as [b2|]; [|discriminate].
    intros [= <-]. apply Forall_app. split; [exact (utf8_char_bytes _ _ C)|].
    now apply IH.
Qed.

Lemma hex_digit_safe (n : N) : (n < 16)%N -> always_safe (hex_digit n) = true.
Proof.
  intros H. unfold hex_digit, always_safe.
  destruct (N.ltb_spec n 10) as [L|L].
  - assert (E : ((48 <=? 48 + n) && (48 + n <=? 57))%N = true)
      by (apply andb_true_iff; split; apply N.leb_le; lia).
    rewrite E, ?orb_true_r. reflexivity.
  - assert (E : ((65 <=? 55 + n) && (55 + n <=? 90))%N = true)
      by (apply andb_true_iff; split; apply N.leb_le; lia).
    rewrite E. reflexivity.
Qed.

Lemma quote_byte_safe (b : N) :
  (b < 256)%N -> forallb query_safe (quote_byte b) = true.
Proof.
  intros H. unfold quote_byte.
  destruct (b =? 32)%N; [reflexivity|].
  destruct (always_safe b) eqn:S.
  - cbn. unfold query_safe. now rewrite S.
  - cbn [forallb]. unfold query_safe.
    rewrite !hex_digit_safe by ndiv. reflexivity.
Qed.

Lemma quote_plus_safe (s q : pystr) :
  quote_plus s = Ok q -> forallb query_safe q = true.
Proof.
  unfold quote_plus. destruct (utf8_encode s) as [bs|] eqn:E; [|discriminate].
  intros [= <-]. apply utf8_encode_bytes in E.
  induction E as [|b bs B _ IH]; [reflexivity|].
  cbn [flat_map]. now rewrite forallb_app, quote_byte_safe, IH.
Qed.

Lemma always_safe_ascii (c : N) :
  always_safe c = true -> (c <? 128)%N = true /\ (c =? 32)%N = false.
Proof.
  unfold always_safe. intros H. to_arith H.
  split; [apply N.ltb_lt|apply N.eqb_neq]; lia.
Qed.

Lemma utf8_encode_plain (s : pystr) :
  forallb (fun c => always_safe c || (c =? 32)%N) s = true ->
  utf8_encode s = Some s.
Proof.
  induction s as [|c s IH]; [reflexivity|].
  cbn [forallb utf8_encode]. intros H. apply andb_true_iff in H as [C H].
  rewrite (IH H). unfold utf8_char.
  replace (c <? 128)%N with true; [reflexivity|].
  symmetry. apply orb_true_iff in C as [C|C].
  - now apply always_safe_ascii.
  - apply N.eqb_eq in C. now subst.
Qed.

Lemma quote_bytes_plain (s : pystr) :
  forallb (fun c => always_safe c || (c =? 32)%N) s = true ->
  flat_map quote_byte s = map (fun c => if (c =? 32)%N then 43%N else c) s.
Proof.
  induction s as [|c s IH]; [reflexivity|].
  cbn [forallb flat_map map]. intros H. apply andb_true_iff in H as [C H].
  rewrite (IH H). unfold quote_byte.
  destruct (c =? 32)%N; [reflexivity|].
  rewrite orb_false_r in C. now rewrite C.
Qed.

(** ** The scan and the request *)

Lemma scan_hits_found (hits : list json) (v : json) :
  scan_hits hits = Ok v -> v <> JNull ->
  exists h, In h hits /\ candidate_smiles h = Ok v.
Proof.
  induction hits as [|h rest IH]; cbn [scan_hits].
  - intros [= <-] N. now destruct N.
  - destruct (candidate_smiles h) as [s|] eqn:C; [|discriminate].
    destruct (truthy s).
    + intros [= <-] _. exists h. split; [now left|assumption].
    + intros H N. destruct (IH H N) as (h' & I & C').
      exists h'. split; [now right|assumption].
Qed.

Lemma candidate_smiles_field (h v : json) :
  candidate_smiles h = Ok v -> canonical_field h = v.
Proof.
  destruct (well_formed_candidate h) eqn:W.
  - rewrite (candidate_smiles_well_formed h W). now intros [= <-].
  - rewrite (candidate_smiles_ill_formed h W). discriminate.
Qed.

Lemma scan_hits_strings (l : list pystr) :
  l <> [] -> scan_hits (map JStr l) = Raise AttributeError.
Proof.
  destruct l as [|s l]; [contradiction|reflexivity].
Qed.

Lemma smiles_of_data_found (data v : json) :
  smiles_of_data data = Ok v -> v <> JNull ->
  exists d hits h,
    data = JDict d
    /\ dict_lookup (lit "molecules") d = Some (JList hits)
    /\ In h hits
    /\ canonical_field h = v.
Proof.
  intros H N. destruct data as [| | | | | |d]; try discriminate H.
  unfold smiles_of_data in H. cbn [py_get rbind] in H.
  destruct (dict_lookup (lit "molecules") d) as [m|] eqn:L.
  2:{ cbn in H. injection H as <-. now destruct N. }
  assert (F : Ok JNull = Ok v -> False)
    by (intros [= <-]; now destruct N).
  destruct m as [|b|z|f|s|l|d']; unfold py_or in H; cbn [truthy] in H.
  - cbn in H. now apply F in H.
  - destruct b; cbn in H; [discriminate|now apply F in H].
  - destruct (negb (z =? 0)); cbn in H; [discriminate|now apply F in H].
  - destruct f; cbn in H; try discriminate; now apply F in H.
  - destruct s as [|c s]; cbn in H; [now apply F in H|discriminate].
  - destruct l as [|h0 l]; [cbn in H; now apply F in H|].
    cbn [py_iter rbind] in H.
    destruct (scan_hits_found _ _ H N) as (h & I & C).
    exists d, (h0 :: l), h. repeat split; try assumption.
    now apply candidate_smiles_field.
  - destruct d' as [|[k x] d']; cbn in H; [now apply F in H|discriminate].
Qed.

(** X9: the scan stops at the first candidate with a non-empty structural
    field: when the candidates before it carry none, that field is the
    result whatever the candidates after it are. *)
Theorem X9_scan_stops_at_first_match
  (pre post : list json) (h v : json) :
  scan_hits pre = Ok JNull ->
  candidate_smiles h = Ok v ->
  truthy v = true ->
  scan_hits (pre ++ h :: post) = Ok v.
Proof.
  intros P C T. induction pre as [|x pre IH]; cbn [app scan_hits].
  - now rewrite C, T.
  - cbn [scan_hits] in P. destruct (candidate_smiles x) as [s|]; [|discriminate].
    destruct (truthy s) eqn:S; [|exact (IH P)].
    injection P as ->. discriminate.
Qed.

Section Requests.

Context {Mol World : Type}.
Variable answer : forall X, event Mol X -> World -> X * World.

(** X10: the one request of a lookup goes, with a timeout of 30, to the
    search endpoint followed by a query that holds nothing but unreserved
    characters, [+] and [%]-escapes: the name cannot change the address or
    add a parameter. *)
Theorem X10_request_shape
  (name : pystr) (w : World) (u : pystr) (t : Z)
  (a : request_failure + response) :
  In (log_get u t a) (log (run answer (get_smiles_from_chembl name) w)) ->
  t = 30
  /\ log (run answer (get_smiles_from_chembl name) w) = [log_get u t a]
  /\ exists q,
       quote_plus name = Ok q
       /\ u = (search_url ++ q)%list
       /\ forallb query_safe q = true.
Proof.
  intros H. destruct (quote_plus_cases name) as [[q Q]|Q].
  - rewrite (run_get_smiles answer name q w Q) in *.
    cbn in H. destruct H as [H|[]]. injection H as <- <- <-.
    split; [reflexivity|split; [reflexivity|]].
    exists q. repeat split; [assumption|]. exact (quote_plus_safe _ _ Q).
  - rewrite (run_get_smiles_unencodable answer name w Q) in H.
    now destruct H.
Qed.

(** X11: the lookup raises exactly for the names UTF-8 cannot encode (those
    holding a surrogate), and then without a request; for every other name it
    returns a value after one request. *)
Theorem X11_lookup_raises_iff_unencodable (name : pystr) (w : World) :
  if forallb encodable name
  then exists v,
      outcome (run answer (get_smiles_from_chembl name) w) = Ok v
      /\ List.length (trace (run answer (get_smiles_from_chembl name) w))
         = 1%nat
  else run answer (get_smiles_from_chembl name) w
       = (Raise UnicodeEncodeError, w, []).
Proof.
  destruct (forallb encodable name) eqn:E.
  - destruct (quote_plus_cases name) as [[q Q]|Q].
    + rewrite (run_get_smiles answer name q w Q). eexists.
      split; reflexivity.
    + unfold quote_plus in Q.
      destruct (utf8_encode name) eqn:U; [discriminate|].
      apply utf8_encode_encodable in U. congruence.
  - apply run_get_smiles_unencodable. unfold quote_plus.
    apply utf8_encode_encodable in E. now rewrite E.
Qed.

(** X12: a name of letters, digits, [_.-~] and spaces is looked up as it
    is, each space replaced by a plus sign. *)
Theorem X12_plain_name_sent_as_is (name : pystr) (w : World) :
  forallb (fun c => always_safe c || (c =? 32)%N) name = true ->
  exists a,
    log (run answer (get_smiles_from_chembl name) w)
    = [log_get
         (search_url ++ map (fun c => if (c =? 32)%N then 43%N else c) name)
         30 a].
Proof.
  intros H.
  assert (Q : quote_plus name
              = Ok (map (fun c => if (c =? 32)%N then 43%N else c) name)).
  { unfold quote_plus. rewrite (utf8_encode_plain name H).
    now rewrite (quote_bytes_plain name H). }
  rewrite (run_get_smiles answer name _ w Q). eexists. reflexivity.
Qed.

(** X13: an encoding the lookup returns is the canonical structural field
    of one of the candidates listed in the body of a response with a
    non-error status: the lookup makes nothing up. *)
Theorem X13_result_comes_from_a_candidate
  (name : pystr) (w : World) (v : json) :
  outcome (run answer (get_smiles_from_chembl name) w) = Ok v ->
  v <> JNull ->
  exists q r d hits h,
    quote_plus name = Ok q
    /\ fst (answer _ (ev_requests_get Mol (search_url ++ q) 30) w) = inr r
    /\ (400 <=? status_code r) && (status_code r <? 600) = false
    /\ json_body r = Some (JDict d)
    /\ dict_lookup (lit "molecules") d = Some (JList hits)
    /\ In h hits
    /\ canonical_field h = v.
Proof.
  intros H N. destruct (quote_plus_cases name) as [[q Q]|Q].
  2:{ rewrite (run_get_smiles_unencodable answer name w Q) in H.
      discriminate. }
  rewrite (run_get_smiles answer name q w Q) in H.
  unfold outcome in H; cbn [fst] in H.
  apply (f_equal (fun o => match o with Ok x => x | Raise _ => JNull end))
    in H.
  cbv beta iota in H.
  destruct (fst (answer _ (ev_requests_get Mol (search_url ++ q) 30) w))
    as [f|r] eqn:A; cbn [smiles_of_answer] in H;
    [congruence|].
  destruct ((400 <=? status_code r) && (status_code r <? 600)) eqn:S;
    [congruence|].
  destruct (json_body r) as [data|] eqn:B; [|congruence].
  destruct (smiles_of_data data) as [x|] eqn:D; [|congruence].
  subst x. destruct (smiles_of_data_found data v D N) as (d & hits & h & -> & L & I & C).
  exists q, r, d, hits, h. repeat split; assumption.
Qed.

(** X15: every failure of the lookup (no response, an error status whatever
    the body holds, a body that is not JSON or not of the expected shape)
    ends the same way: the lookup returns absent after its one request. *)
Theorem X15_lookup_failures_look_alike (name q : pystr) (w : World) :
  quote_plus name = Ok q ->
  lookup_failed
    (fst (answer _ (ev_requests_get Mol (search_url ++ q) 30) w)) = true ->
  outcome (run answer (get_smiles_from_chembl name) w) = Ok JNull
  /\ List.length (trace (run answer (get_smiles_from_chembl name) w))
     = 1%nat.
Proof.
  intros Q F. rewrite (run_get_smiles answer name q w Q).
  split; [|reflexivity]. unfold outcome; cbn [fst]. f_equal.
  destruct (fst (answer _ (ev_requests_get Mol (search_url ++ q) 30) w))
    as [f|r]; cbn [smiles_of_answer lookup_failed] in *; [reflexivity|].
  destruct ((400 <=? status_code r) && (status_code r <? 600));
    [reflexivity|].
  destruct (json_body r) as [data|]; [|reflexivity].
  destruct (smiles_of_data data); [discriminate F|reflexivity].
Qed.

End Requests.

(** ** The submitted branch, run by run *)

Section Shapes.

Context {Mol World : Type}.
Variable answer : forall X, event Mol X -> World -> X * World.

Lemma run_smiles_to_mol_truthy_not_str (v : json) (w : World) :
  truthy v = true ->
  (forall s, v <> JStr s) ->
  run answer (smiles_to_mol v) w = (Raise TypeError, w, []).
Proof.
  intros T H. unfold smiles_to_mol. rewrite T.
  destruct v; try reflexivity. now destruct (H s).
Qed.

(** Every run of the submitted branch has one of the eight shapes. *)
Lemma pipeline_runs (name legend : pystr) (width height : Z) (w : World) :
  script_run name legend width height
    (outcome (run answer (pipeline name width height legend) w))
    (log (run answer (pipeline name width height legend) w)).
Proof.
  destruct (strip name) as [|c0 s0] eqn:E0.
  { unfold pipeline. rewrite E0. cbn [truthy negb when].
    rewrite run_bind, run_error_stop. cbn. now apply run_blank. }
  assert (N : strip name <> []) by (rewrite E0; discriminate).
  assert (V : negb (truthy (JStr (strip name))) = false)
    by (now rewrite E0).
  clear E0 c0 s0.
  unfold pipeline. rewrite V. cbn [when ret bind].
  rewrite run_bind, run_st. cbn [outcome fst snd trace final app].
  set (w0 := snd (answer _ (ev_st Mol (st_spinner spinner_text)) w)).
  rewrite run_bind.
  destruct (quote_plus_cases (strip name)) as [[q Q]|Q].
  2:{ rewrite (run_get_smiles_unencodable answer _ w0 Q). cbn.
      now apply run_unencodable. }
  rewrite (run_get_smiles answer _ q w0 Q).
  cbn [outcome fst snd trace final].
  set (e := ev_requests_get Mol (search_url ++ q) 30).
  set (a := fst (answer _ e w0)). set (w1 := snd (answer _ e w0)).
  destruct (smiles_of_answer_truthy a) as [A|A].
  { rewrite A. cbn [truthy negb when].
    rewrite run_bind, run_error_stop. cbn.
    now apply (run_not_found _ _ _ _ _ q a). }
  rewrite A. cbn [negb when ret bind]. rewrite run_bind.
  assert (S : (exists s, smiles_of_answer a = JStr s)
              \/ (forall s, smiles_of_answer a <> JStr s))
    by (destruct (smiles_of_answer a);
        try (right; intros ?; discriminate); left; eauto).
  destruct S as [[s S]|S].
  2:{ rewrite (run_smiles_to_mol_truthy_not_str _ w1 A S). cbn.
      now apply (run_not_str _ _ _ _ _ q a). }
  rewrite S. rewrite S in A.
  assert (NS : s <> []) by (intros ->; discriminate).
  destruct (utf8_encode s) as [bs|] eqn:U.
  2:{ rewrite (run_smiles_to_mol_unencodable answer s w1 U). cbn.
      now apply (run_unencodable_smiles _ _ _ _ _ q a s). }
  destruct (run_smiles_to_mol answer s w1 ltac:(rewrite U; discriminate))
    as [[E _]|[(_ & w2 & _ & R)|[(_ & m0 & w2 & w3 & _ & _ & R)
       |(_ & m0 & m1 & m & w2 & w3 & w4 & _ & _ & _ & R)]]];
    [contradiction| | |]; cbn zeta in R; rewrite R;
    cbn [outcome fst snd trace final when].
  - rewrite run_bind, run_error_stop. cbn.
    now apply (run_invalid _ _ _ _ _ q a s).
  - cbn. now apply (run_unsanitized _ _ _ _ _ q a s m0).
  - cbn [ret bind]. rewrite run_bind.
    destruct (utf8_encode legend) as [cs|] eqn:L.
    2:{ rewrite (run_mol_to_png_bytes_unencodable answer m legend _ w4 L).
        cbn. now apply (run_unencodable_caption _ _ _ _ _ q a s m0 m1 m). }
    rewrite (run_mol_to_png_bytes answer m legend _ w4
               ltac:(rewrite L; discriminate)).
    cbn [outcome fst snd trace final].
    set (d := canvas m legend (width, height)).
    destruct (fst (answer _ (ev_GetDrawingText Mol d) w4))
      as [[|b text']|] eqn:T; cbn [bytes_truthy negb when].
    + rewrite run_bind, run_error_stop. cbn.
      now apply (run_no_image _ _ _ _ _ q a s m0 m1 m).
    + cbn [ret bind]. rewrite run_bind, run_st.
      cbn [outcome fst snd trace final].
      rewrite run_bind, run_st. cbn [outcome fst snd trace final].
      rewrite run_st. cbn.
      apply (run_done _ _ _ _ _ q a s m0 m1 m (b :: text'));
        try assumption. discriminate.
    + cbn. now apply (run_refused _ _ _ _ _ q a s m0 m1 m).
Qed.

(** Case analysis on the shape of a run: the outcome and the log become
    those of the shape. *)
Ltac by_shape name legend width height w :=
  let R := fresh "R" in
  pose proof (pipeline_runs name legend width height w) as R;
  set (o := outcome (run answer (pipeline name width height legend) w)) in *;
  set (l := log (run answer (pipeline name width height legend) w)) in *;
  clearbody o l; destruct R.

(** Which entry of a listed log a membership is about. *)
Ltac which H :=
  cbn [In] in H;
  repeat (destruct H as [H|H]; [try discriminate H|]);
  try contradiction.

(** X1: a run that completes made one lookup, parsed what the lookup
    returned, sanitized and laid out the molecule, drew it on a canvas of the
    submitted size, and then showed the encoding, the image and a download of
    the same non-empty bytes under the trimmed name with [.png]. *)
Theorem X1_completed_run_log
  (name legend : pystr) (width height : Z) (w : World) :
  outcome (run answer (pipeline name width height legend) w) = Ok tt ->
  exists q a s m0 m1 m text,
    quote_plus (strip name) = Ok q
    /\ smiles_of_answer a = JStr s
    /\ text <> []
    /\ log (run answer (pipeline name width height legend) w)
       = [log_st (st_spinner spinner_text);
          log_get (search_url ++ q) 30 a;
          log_MolFromSmiles s (Some m0);
          log_SanitizeMol m0 (Some m1);
          log_Compute2DCoords m1 m;
          log_GetDrawingText (canvas m legend (width, height)) text;
          log_st (st_success "Done! Found SMILES: `" (JStr s) "`");
          log_st (st_image text legend);
          log_st (st_download_button download_label text
                    (strip name ++ lit ".png") "image/png")].
Proof.
  intros H. by_shape name legend width height w; try discriminate H.
  exists q, a, s, m0, m1, m, text. repeat split; assumption.
Qed.

(** X2: no run of the script makes more than one request: nothing is
    retried. *)
Theorem X2_at_most_one_request
  (name legend : pystr) (width height : Z) (w : World) :
  (List.length (filter is_log_get
             (log (run answer (pipeline name width height legend) w)))
   <= 1)%nat.
Proof.
  by_shape name legend width height w; cbn; lia.
Qed.

(** X3: whatever goes wrong in the lookup (the request, the status, the
    decoding, the shape of the body) never leaves the script as an
    exception. *)
Theorem X3_lookup_errors_stay_inside
  (name legend : pystr) (width height : Z) (w : World) (e : exn) :
  outcome (run answer (pipeline name width height legend) w) = Raise e ->
  is_RequestException e = false
  /\ e <> JSONDecodeError
  /\ e <> AttributeError.
Proof.
  intros H. by_shape name legend width height w;
    try discriminate H; injection H as <-;
    repeat split; discriminate.
Qed.

(** X4: [st.stop()] is only ever called right after an [st.error], as the
    last call of the run, and nothing was reported as an error before. *)
Theorem X4_stop_follows_one_error
  (name legend : pystr) (width height : Z) (w : World) :
  In (log_st st_stop)
    (log (run answer (pipeline name width height legend) w)) ->
  outcome (run answer (pipeline name width height legend) w)
  = Raise StopException
  /\ exists t body,
       log (run answer (pipeline name width height legend) w)
       = t ++ [log_st (st_error body); log_st st_stop]
       /\ existsb is_log_error t = false
       /\ ~ In (log_st st_stop) t.
Proof.
  intros H. by_shape name legend width height w; which H;
    (split; [reflexivity|]).
  - exists [], msg_no_name. repeat split. intros [].
  - eexists [_; _], msg_not_found. repeat split.
    intros I; which I.
  - eexists [_; _; _], msg_invalid. repeat split.
    intros I; which I.
  - eexists [_; _; _; _; _; _], msg_no_image. repeat split.
    intros I; which I.
Qed.


(** X6: each error message has its cause in the log: the validation message
    only for a blank name, the lookup message only after a request whose
    answer gave no encoding, the structure message only after RDKit refused a
    non-empty string, the image message only after the backend wrote
    nothing. *)
Theorem X6_error_messages_have_causes
  (name legend : pystr) (width height : Z) (w : World) (body : string) :
  In (log_st (st_error body))
    (log (run answer (pipeline name width height legend) w)) ->
  (body = msg_no_name /\ strip name = [])
  \/ (body = msg_not_found
      /\ exists u a,
           In (log_get u 30 a)
             (log (run answer (pipeline name width height legend) w))
           /\ smiles_of_answer a = JNull)
  \/ (body = msg_invalid
      /\ exists s,
           s <> []
           /\ In (log_MolFromSmiles s None)
                (log (run answer (pipeline name width height legend) w)))
  \/ (body = msg_no_image
      /\ exists d,
           In (log_GetDrawingText d [])
             (log (run answer (pipeline name width height legend) w))).
Proof.
  intros H. by_shape name legend width height w; which H;
    injection H as <-.
  - left. now split.
  - right; left. split; [reflexivity|]. exists (search_url ++ q), a.
    split; [cbn; tauto|assumption].
  - right; right; left. split; [reflexivity|]. exists s.
    split; [assumption|cbn; tauto].
  - right; right; right. split; [reflexivity|]. eexists. cbn; tauto.
Qed.

(** X7: if sanitization raises, the error leaves the script as it is: no
    message is shown and the run is not stopped. *)
Theorem X7_sanitize_error_unannounced
  (name legend : pystr) (width height : Z) (w : World) (m0 : Mol) :
  In (log_SanitizeMol m0 None)
    (log (run answer (pipeline name width height legend) w)) ->
  outcome (run answer (pipeline name width height legend) w)
  = Raise MolSanitizeException
  /\ existsb is_log_error
       (log (run answer (pipeline name width height legend) w)) = false
  /\ ~ In (log_st st_stop)
         (log (run answer (pipeline name width height legend) w)).
Proof.
  intros H. by_shape name legend width height w; which H.
  repeat split. intros I; which I.
Qed.

(** X14: a name with a character that is not whitespace passes the
    validation: the run starts the spinner and never shows the validation
    message. *)
Theorem X14_named_run_passes_validation
  (name legend : pystr) (width height : Z) (w : World) :
  forallb isspace name = false ->
  exists t,
    log (run answer (pipeline name width height legend) w)
    = log_st (st_spinner spinner_text) :: t
    /\ ~ In (log_st (st_error msg_no_name)) t.
Proof.
  intros H. apply strip_not_blank in H.
  by_shape name legend width height w; try contradiction;
    eexists; (split; [reflexivity|]); intros I; which I.
Qed.

End Shapes.

(** ** The added properties at work *)

Lemma X1_completed_run_log_witness :
  exists text,
    text <> []
    /\ In (log_st (st_download_button download_label text
                     (lit "ethanol.png") "image/png"))
         (log (run (Fixture.answer Fixture.found)
                 (pipeline (lit " ethanol ") 1200 800 []) 0%nat)).
Proof.
  destruct (X1_completed_run_log (Fixture.answer Fixture.found)
              (lit " ethanol ") [] 1200 800 0%nat eq_refl)
    as (q & a & s & m0 & m1 & m & text & _ & _ & T & L).
  exists text. split; [exact T|]. rewrite L. simpl. tauto.
Defined.

Lemma X3_lookup_errors_stay_inside_witness :
  is_RequestException StopException = false
  /\ StopException <> JSONDecodeError
  /\ StopException <> AttributeError.
Proof.
  apply (X3_lookup_errors_stay_inside (Fixture.answer Fixture.timed_out)
           (lit "ethanol") [] 1200 800 0%nat StopException).
  reflexivity.
Defined.

Lemma X4_stop_follows_one_error_witness :
  outcome (run (Fixture.answer Fixture.timed_out)
             (pipeline (lit "ethanol") 1200 800 []) 0%nat)
  = Raise StopException
  /\ exists t body,
       log (run (Fixture.answer Fixture.timed_out)
              (pipeline (lit "ethanol") 1200 800 []) 0%nat)
       = t ++ [log_st (st_error body); log_st st_stop]
       /\ existsb is_log_error t = false
       /\ ~ In (log_st st_stop) t.
Proof.
  apply (X4_stop_follows_one_error (Fixture.answer Fixture.timed_out)
           (lit "ethanol") [] 1200 800 0%nat).
  simpl. tauto.
Defined.


Lemma X6_error_messages_have_causes_witness :
  exists u a,
    In (log_get u 30 a)
      (log (run (Fixture.answer Fixture.timed_out)
              (pipeline (lit "ethanol") 1200 800 []) 0%nat))
    /\ smiles_of_answer a = JNull.
Proof.
  destruct (X6_error_messages_have_causes (Fixture.answer Fixture.timed_out)
              (lit "ethanol") [] 1200 800 0%nat msg_not_found
              ltac:(simpl; tauto))
    as [[E _]|[[_ H]|[[E _]|[E _]]]]; try discriminate E.
  exact H.
Defined.

Lemma X7_sanitize_error_unannounced_witness :
  outcome (run (Faulty.answer Fixture.found false [])
             (pipeline (lit "ethanol") 1200 800 []) 0%nat)
  = Raise MolSanitizeException
  /\ existsb is_log_error
       (log (run (Faulty.answer Fixture.found false [])
               (pipeline (lit "ethanol") 1200 800 []) 0%nat)) = false
  /\ ~ In (log_st st_stop)
         (log (run (Faulty.answer Fixture.found false [])
                 (pipeline (lit "ethanol") 1200 800 []) 0%nat)).
Proof.
  apply (X7_sanitize_error_unannounced (Faulty.answer Fixture.found false [])
           (lit "ethanol") [] 1200 800 0%nat
           {| Fixture.heavy_atoms := 3; Fixture.sanitized := true;
              Fixture.has_coords := false |}).
  simpl. tauto.
Defined.

Lemma X9_scan_stops_at_first_match_witness :
  scan_hits ([JDict [(lit "molecule_structures", JNull)]]
             ++ Fixture.structures (JStr Fixture.CCO) :: [JInt 5])
  = Ok (JStr Fixture.CCO).
Proof.
  apply X9_scan_stops_at_first_match; reflexivity.
Defined.

Lemma X10_request_shape_witness :
  30 = 30
  /\ log (run (Fixture.answer Fixture.found)
            (get_smiles_from_chembl (lit "a&b=c")) 0%nat)
     = [log_get (search_url ++ lit "a%26b%3Dc") 30 Fixture.found]
  /\ exists q,
       quote_plus (lit "a&b=c") = Ok q
       /\ (search_url ++ lit "a%26b%3Dc")%list = (search_url ++ q)%list
       /\ forallb query_safe q = true.
Proof.
  apply (X10_request_shape (Fixture.answer Fixture.found) (lit "a&b=c")
           0%nat (search_url ++ lit "a%26b%3Dc") 30 Fixture.found).
  simpl. left. reflexivity.
Defined.

Lemma X12_plain_name_sent_as_is_witness :
  exists a,
    log (run (Fixture.answer Fixture.found)
           (get_smiles_from_chembl (lit "acetic acid")) 0%nat)
    = [log_get (search_url ++ lit "acetic+acid") 30 a].
Proof.
  apply (X12_plain_name_sent_as_is (Fixture.answer Fixture.found)
           (lit "acetic acid") 0%nat).
  reflexivity.
Defined.

Lemma X13_result_comes_from_a_candidate_witness :
  exists q r d hits h,
    quote_plus (lit "ethanol") = Ok q
    /\ fst (Fixture.answer Fixture.found _
              (ev_requests_get _ (search_url ++ q) 30) 0%nat) = inr r
    /\ (400 <=? status_code r) && (status_code r <? 600) = false
    /\ json_body r = Some (JDict d)
    /\ dict_lookup (lit "molecules") d = Some (JList hits)
    /\ In h hits
    /\ canonical_field h = JStr Fixture.CCO.
Proof.
  apply (X13_result_comes_from_a_candidate (Fixture.answer Fixture.found)
           (lit "ethanol") 0%nat (JStr Fixture.CCO)).
  - reflexivity.
  - discriminate.
Defined.

Lemma X14_named_run_passes_validation_witness :
  exists t,
    log (run (Fixture.answer Fixture.timed_out)
           (pipeline (lit "  x ") 1200 800 []) 0%nat)
    = log_st (st_spinner spinner_text) :: t
    /\ ~ In (log_st (st_error msg_no_name)) t.
Proof.
  apply (X14_named_run_passes_validation (Fixture.answer Fixture.timed_out)
           (lit "  x ") [] 1200 800 0%nat).
  reflexivity.
Defined.

Lemma X15_lookup_failures_look_alike_witness :
  outcome (run (Fixture.answer Faulty.refused)
             (get_smiles_from_chembl (lit "ethanol")) 0%nat)
  = Ok JNull
  /\ List.length (trace (run (Fixture.answer Faulty.refused)
                           (get_smiles_from_chembl (lit "ethanol")) 0%nat))
     = 1%nat.
Proof.
  apply (X15_lookup_failures_look_alike (Fixture.answer Faulty.refused)
           (lit "ethanol") (lit "ethanol") 0%nat).
  - reflexivity.
  - reflexivity.
Defined.
